(** * Training recommender: the recommendation engine of [app.py]

    A shallow embedding of the class [TrainingRecommendationSystem]
    (gap analysis, context filter, training resolver, relevance scorer and
    response assembly) together with the properties stated about it.

    Conventions of the embedding.
    - Python [str] values are [string]s of 8-bit characters; [lower] and
      [upper] act on the ASCII letters only, which is what the catalog and
      every keyword of the engine consist of.
    - Python numbers are exact rationals ([Q]): a score is the rational its
      literal denotes and arithmetic is exact, so rounding of binary floating
      point, infinities and NaN are outside the model. Costs and durations
      are Python [int]s ([Z]). The relevance scorer is given a second time
      on binary64 numbers (module [Binary64]).
    - A [dict] that is only looked up is a [gmap]; a [dict] that is iterated
      is an association list in insertion order.
    - [list(set(xs))] enumerates a hash set; its order is fixed within one
      interpreter run but not by the language, so it is a parameter
      [list_of_set] of the functions that use it.
    - [datetime.now()] is the parameter [today] (already formatted as
      [%Y-%m-%d]).
    - A raised exception is the [Raise] case of the [result] monad. An
      assessment is a record whose fields have the types the engine expects;
      the module [Dyn] runs the engine on an assessment that is an arbitrary
      value, where every operation that depends on the type of its operand
      may raise. *)

From Stdlib Require Import Ascii String QArith Qround Lqa Floats.
From stdpp Require Import gmap strings list sorting.

Open Scope string_scope.

(** ** Python strings *)

Module Str.

Definition lower_char (c : ascii) : ascii :=
  let n := Ascii.N_of_ascii c in
  if ((65 <=? n) && (n <=? 90))%N then Ascii.ascii_of_N (n + 32) else c.

Definition upper_char (c : ascii) : ascii :=
  let n := Ascii.N_of_ascii c in
  if ((97 <=? n) && (n <=? 122))%N then Ascii.ascii_of_N (n - 32) else c.

Fixpoint map_chars (f : ascii -> ascii) (s : string) : string :=
  match s with
  | EmptyString => EmptyString
  | String c s' => String (f c) (map_chars f s')
  end.

(** [s.lower()] and [s.upper()]. *)
Definition lower (s : string) : string := map_chars lower_char s.
Definition upper (s : string) : string := map_chars upper_char s.

(** [s.replace(a, b)] for one-character [a] and [b]. *)
Definition replace_char (a b : ascii) (s : string) : string :=
  map_chars (fun c => if Ascii.eqb c a then b else c) s.

(** [sub in s]: [sub] occurs in [s] as a contiguous substring. *)
Fixpoint contains (sub s : string) : bool :=
  String.prefix sub s ||
  match s with
  | EmptyString => false
  | String _ s' => contains sub s'
  end.

(** The characters [str.split()] treats as separators in an 8-bit string. *)
Definition is_space (c : ascii) : bool :=
  let n := Ascii.N_of_ascii c in
  (((9 <=? n) && (n <=? 13)) || ((28 <=? n) && (n <=? 32)))%N.

(** [s.split()]: the maximal runs of non-space characters, left to right.
    [word] is the run being read, if any. *)
Fixpoint split_from (word : option string) (s : string) : list string :=
  match s with
  | EmptyString =>
      match word with Some w => [w] | None => [] end
  | String c s' =>
      if is_space c then
        match word with
        | Some w => w :: split_from None s'
        | None => split_from None s'
        end
      else split_from (Some (default "" word ++ String c "")) s'
  end.

Definition split (s : string) : list string := split_from None s.

(** [any(k in s for k in keywords)]. *)
Definition contains_any (keywords : list string) (s : string) : bool :=
  existsb (fun k => contains k s) keywords.

(** The declarative reading of [sub in s]. *)
Definition substring (sub s : string) : Prop :=
  exists pre post : string, s = pre ++ sub ++ post.

End Str.

(** ** Python numbers *)

Module Num.

Definition ltb (x y : Q) : bool := negb (Qle_bool y x).

(** [min(a, b)] and [max(a, b)] return their first argument unless the
    second is strictly smaller (resp. larger). *)
Definition py_min (a b : Q) : Q := if ltb b a then b else a.
Definition py_max (a b : Q) : Q := if ltb a b then b else a.

(** [round(x, 2)]: nearest multiple of 1/100, ties to the even one. *)
Definition round2 (x : Q) : Q :=
  let y := (x * 100)%Q in
  let f := Qfloor y in
  let r := (y - inject_Z f)%Q in
  let n :=
    if ltb r (1 # 2) then f
    else if ltb (1 # 2) r then (f + 1)%Z
    else if Z.even f then f else (f + 1)%Z in
  (n # 100)%Q.

End Num.

(** ** Exceptions *)

Inductive exn : Type :=
  | TypeError (msg : string)
  | AttributeError (msg : string)
  | ValueError (msg : string)
  | OverflowError (msg : string).

(** [str(e)]. *)
Definition str_of_exn (e : exn) : string :=
  match e with
  | TypeError msg | AttributeError msg | ValueError msg
  | OverflowError msg => msg
  end.

Inductive result (A : Type) : Type :=
  | Ok (a : A)
  | Raise (e : exn).
Arguments Ok {A} a.
Arguments Raise {A} e.

#[global] Instance result_ret : MRet result := fun A a => Ok a.
#[global] Instance result_bind : MBind result := fun A B f m =>
  match m with
  | Ok a => f a
  | Raise e => Raise e
  end.

(** ** Data model *)

(** A value found under a competency key: a number, or [None]. *)
Inductive pyscore : Type :=
  | PyNum (q : Q)
  | PyNone.

(** [float(v)]. *)
Definition float (v : pyscore) : result Q :=
  match v with
  | PyNum q => Ok q
  | PyNone =>
      Raise (TypeError
        "float() argument must be a string or a real number, not 'NoneType'")
  end.

(** The assessment dictionary; [None] is an absent key. *)
Record assessment : Type := {
  employee_id : option string;
  current_position : option string;
  division : option string;
  experience_level : option string;
  core_competency_scores : option (list (string * pyscore));
  managerial_competency_scores : option (list (string * pyscore));
  leadership_competency_scores : option (list (string * pyscore))
}.

(** A training dictionary. Catalog entries carry no ['training_id'] key; the
    resolver adds it. *)
Record training : Type := {
  training_id : option string;
  training_name : string;
  school : string;
  target_division : string;
  target_level : string;
  duration_days : Z;
  cost : Z;
  job_family : string;
  learning_objectives : list string
}.

(** [{**details, 'training_id': training_id}]. *)
Definition with_training_id (details : training) (id : string) : training :=
  {| training_id := Some id;
     training_name := training_name details;
     school := school details;
     target_division := target_division details;
     target_level := target_level details;
     duration_days := duration_days details;
     cost := cost details;
     job_family := job_family details;
     learning_objectives := learning_objectives details |}.

(** The attributes of a [TrainingRecommendationSystem] instance. *)
Record system : Type := {
  competency_training_mapping : gmap string (list string);
  division_mapping : gmap string (list string);
  training_database : list (string * training)
}.

(** An intermediate recommendation (the dictionary built in
    [recommend_training]). *)
Record recommendation : Type := {
  rec_competency_gap : string;
  rec_current_score : Q;
  rec_training_details : training;
  rec_relevance_score : Q;
  rec_priority_level : Z;
  rec_expected_improvement : Q;
  rec_timeline : string
}.

(** A formatted recommendation of the response. *)
Record formatted_rec : Type := {
  priority : Z;
  competency_gap : string;
  current_score : Q;
  target_score : Q;
  recommended_training : training;
  relevance_score : Q;
  expected_improvement : Q;
  timeline : string
}.

Record development_path : Type := {
  critical : list string;
  high_priority : list string;
  medium_priority : list string
}.

Record summary : Type := {
  total_recommendations : Z;
  total_estimated_cost : Z;
  total_estimated_duration : Z
}.

(** The response dictionary; the error-shaped response has an ['error'] key
    and neither ['assessment_date'] nor ['development_path']. *)
Record response : Type := {
  error : option string;
  resp_employee_id : string;
  assessment_date : option string;
  recommendations : list formatted_rec;
  resp_development_path : option development_path;
  resp_summary : summary
}.

(** ** [sorted(xs, key=...)] and [xs.sort(key=...)]

    Both are stable and compare keys with [<] only; [lt x y] is "the key of
    [x] is less than the key of [y]". The output of a stable sort is
    determined by its input, so insertion from the right stands for it. *)

Section StableSort.
Context {A : Type} (lt : A -> A -> bool).

Fixpoint insert_sorted (x : A) (l : list A) : list A :=
  match l with
  | [] => [x]
  | y :: l' => if lt y x then y :: insert_sorted x l' else x :: y :: l'
  end.

Fixpoint stable_sort (l : list A) : list A :=
  match l with
  | [] => []
  | x :: l' => insert_sorted x (stable_sort l')
  end.
End StableSort.

(** [enumerate(xs, start)]. *)
Fixpoint enumerate {A : Type} (start : Z) (xs : list A) : list (Z * A) :=
  match xs with
  | [] => []
  | x :: xs' => (start, x) :: enumerate (start + 1) xs'
  end.

(** [d[k] = v] on a dictionary kept in insertion order: an existing key keeps
    its place, a new key goes last. *)
Fixpoint dict_set {V : Type} (d : list (string * V)) (k : string) (v : V)
  : list (string * V) :=
  match d with
  | [] => [(k, v)]
  | (k', v') :: d' =>
      if String.eqb k' k then (k', v) :: d' else (k', v') :: dict_set d' k v
  end.

(** Truth value of a list ([if xs:]). *)
Definition truthy {A : Type} (xs : list A) : bool :=
  match xs with [] => false | _ :: _ => true end.

(** ** Gap analyzer *)

(** One of the three loops of [identify_priority_areas]:
    [for competency, score in scores.items():
       all_scores[prefix + competency] = float(score)]. *)
Fixpoint add_scores (prefix : string) (items : list (string * pyscore))
    (all_scores : list (string * Q)) : result (list (string * Q)) :=
  match items with
  | [] => Ok all_scores
  | (competency, score) :: items' =>
      x ← float score;
      add_scores prefix items' (dict_set all_scores (prefix ++ competency) x)
  end.

Definition score_lt (x y : string * Q) : bool := Num.ltb x.2 y.2.

Definition identify_priority_areas (assessment_data : assessment)
  : result (list (string * Q)) :=
  let all_scores := [] in
  let core_scores := default [] (core_competency_scores assessment_data) in
  all_scores ← add_scores "core_" core_scores all_scores;
  let managerial_scores :=
    default [] (managerial_competency_scores assessment_data) in
  all_scores ← add_scores "managerial_" managerial_scores all_scores;
  let leadership_scores :=
    default [] (leadership_competency_scores assessment_data) in
  all_scores ← add_scores "leadership_" leadership_scores all_scores;
  let priority_areas := stable_sort score_lt all_scores in
  Ok (take 5 priority_areas).

Definition get_priority_level (score : Q) : Z :=
  if Num.ltb score 2 then 1
  else if Num.ltb score 3 then 2
  else if Num.ltb score 3.5 then 3
  else 4.

Definition _get_timeline (priority_level : Z) : string :=
  if (priority_level =? 1)%Z then "Immediate (within 1 month)"
  else if (priority_level =? 2)%Z then "High Priority (within 3 months)"
  else if (priority_level =? 3)%Z then "Medium Priority (within 6 months)"
  else if (priority_level =? 4)%Z then "Low Priority (within 12 months)"
  else "To be scheduled".

(** ** Keyword classifiers *)

Definition mgmt_keywords : list string :=
  ["strategi"; "leadership"; "management"; "manajemen"; "strategic";
   "executive"].

Definition advanced_keywords : list string :=
  ["advanced"; "strategic"; "transformasi"; "leadership"; "executive"].

Definition is_management_training (training_name : string) : bool :=
  if String.eqb training_name "" then false
  else Str.contains_any mgmt_keywords (Str.lower training_name).

Definition is_advanced_training (training_name : string) : bool :=
  if String.eqb training_name "" then false
  else Str.contains_any advanced_keywords (Str.lower training_name).

(** ** Context filter *)

(** The keyword lists local to [filter_by_context]; its own
    [advanced_keywords] is [junior_excluded_keywords] here, the list of its
    last comprehension is [senior_keywords]. *)
Definition management_keywords : list string :=
  ["strategic"; "leadership"; "management"; "manajemen"; "transformasi"].

Definition junior_excluded_keywords : list string :=
  ["advanced"; "strategic"; "transformasi"; "executive"].

Definition senior_keywords : list string :=
  ["strategic"; "leadership"; "transformasi"].

Definition is_manager_position (position : string) : bool :=
  Str.contains "manager" (Str.lower position)
  || Str.contains "supervisor" (Str.lower position).

Definition filter_by_context (self : system)
    (list_of_set : list string -> list string)
    (trainings : list string) (position division experience : string)
  : list string :=
  let filtered := trainings in
  let filtered :=
    if is_manager_position position then
      let management_trainings :=
        List.filter
          (fun t => Str.contains_any management_keywords (Str.lower t))
          trainings in
      (filtered ++ management_trainings)%list
    else filtered in
  let division_trainings :=
    default [] (division_mapping self !! Str.lower division) in
  let filtered :=
    if truthy division_trainings then
      let division_matches :=
        List.filter
          (fun t =>
             existsb (fun dt => Str.contains (Str.lower dt) (Str.lower t))
               division_trainings)
          trainings in
      (filtered ++ division_matches)%list
    else filtered in
  let filtered :=
    if String.eqb (Str.lower experience) "junior" then
      List.filter
        (fun t =>
           negb (Str.contains_any junior_excluded_keywords (Str.lower t)))
        filtered
    else if String.eqb (Str.lower experience) "senior" then
      let strategic_trainings :=
        List.filter
          (fun t => Str.contains_any senior_keywords (Str.lower t))
          trainings in
      (filtered ++ strategic_trainings)%list
    else filtered in
  list_of_set filtered.

(** ** Relevance scorer *)

Definition position_multiplier (training_details : training)
    (employee_data : assessment) : Q :=
  let current_position :=
    Str.lower (default "" (current_position employee_data)) in
  if Str.contains "manager" current_position
     || Str.contains "supervisor" current_position then
    if is_management_training (training_name training_details)
    then 1.5 else 1
  else 1.

Definition division_multiplier (training_details : training)
    (employee_data : assessment) : Q :=
  let target_division := Str.lower (target_division training_details) in
  let employee_division := Str.lower (default "" (division employee_data)) in
  if String.eqb target_division employee_division
     || String.eqb target_division "all"
  then 1.3 else 1.

Definition experience_multiplier (training_details : training)
    (employee_data : assessment) : Q :=
  let experience_level :=
    Str.lower (default "" (experience_level employee_data)) in
  if String.eqb experience_level "junior" then
    if negb (is_advanced_training (training_name training_details))
    then 1.2 else 1
  else if String.eqb experience_level "senior" then
    if is_advanced_training (training_name training_details)
    then 1.2 else 1
  else 1.

Definition calculate_relevance_score (competency : string)
    (current_score : Q) (training_details : training)
    (employee_data : assessment) : Q :=
  let base_score := (5 - current_score)%Q in
  let final_score :=
    (base_score * position_multiplier training_details employee_data
     * division_multiplier training_details employee_data
     * experience_multiplier training_details employee_data)%Q in
  Num.py_max 0.1 (Num.py_min 10 final_score).

(** ** Training resolver *)

Definition generic_training (training_school : string) : training :=
  {| training_id :=
       Some ("GENERIC_"
             ++ Str.upper (Str.replace_char " " "_" training_school));
     training_name := "Training Program for " ++ training_school;
     school := training_school;
     target_division := "general";
     target_level := "ALL";
     duration_days := 3;
     cost := 5000000;
     learning_objectives := ["Competency development"; "Skill enhancement"];
     job_family := "General" |}.

(** The test of the first loop of [get_training_details]. *)
Definition school_matches (training_school : string)
    (entry : string * training) : bool :=
  Str.contains (Str.lower training_school) (Str.lower (school entry.2)).

(** The test of its second loop. *)
Definition school_word_matches (training_school : string)
    (entry : string * training) : bool :=
  let school_words := Str.split (Str.lower training_school) in
  existsb (fun word => Str.contains word (Str.lower (school entry.2)))
    school_words.

(** No operation of the body raises on a string argument, so the handler
    that returns [None] is never entered; the result type keeps the
    [Optional] of the source. *)
Definition get_training_details (self : system) (training_school : string)
  : option training :=
  let matching_trainings :=
    map (fun entry => with_training_id entry.2 entry.1)
      (List.filter (school_matches training_school)
         (training_database self)) in
  match matching_trainings with
  | first :: _ => Some first
  | [] =>
      match List.find (school_word_matches training_school)
              (training_database self) with
      | Some entry => Some (with_training_id entry.2 entry.1)
      | None => Some (generic_training training_school)
      end
  end.

(** ** Recommendation assembler *)

(** The body of the inner loop of [recommend_training]: one resolved school
    appends one recommendation; a school that resolves to [None] is skipped. *)
Definition recommend_school (self : system) (assessment_data : assessment)
    (competency : string) (score : Q)
    (recommendations : list recommendation) (training_school : string)
  : list recommendation :=
  match get_training_details self training_school with
  | None => recommendations
  | Some training_details =>
      let relevance_score :=
        calculate_relevance_score competency score training_details
          assessment_data in
      let recommendation :=
        {| rec_competency_gap := competency;
           rec_current_score := score;
           rec_training_details := training_details;
           rec_relevance_score := relevance_score;
           rec_priority_level := get_priority_level score;
           rec_expected_improvement := Num.py_min 2 (5 - score)%Q;
           rec_timeline := _get_timeline (get_priority_level score) |} in
      (recommendations ++ [recommendation])%list
  end.

(** The body of the outer loop: one priority area. *)
Definition recommend_area (self : system)
    (list_of_set : list string -> list string) (assessment_data : assessment)
    (recommendations : list recommendation) (area : string * Q)
  : list recommendation :=
  let competency := area.1 in
  let score := area.2 in
  let potential_trainings :=
    default [] (competency_training_mapping self !! competency) in
  if negb (truthy potential_trainings) then recommendations
  else
    let filtered_trainings :=
      filter_by_context self list_of_set potential_trainings
        (default "" (current_position assessment_data))
        (default "" (division assessment_data))
        (default "" (experience_level assessment_data)) in
    fold_left (recommend_school self assessment_data competency score)
      filtered_trainings recommendations.

(** The sort key [(priority_level, -relevance_score)], compared as Python
    compares tuples. *)
Definition rec_key_lt (x y : recommendation) : bool :=
  if (rec_priority_level x =? rec_priority_level y)%Z then
    Num.ltb (- rec_relevance_score x)%Q (- rec_relevance_score y)%Q
  else (rec_priority_level x <? rec_priority_level y)%Z.

Definition format_rec (i : Z) (rec : recommendation) : formatted_rec :=
  {| priority := i;
     competency_gap := rec_competency_gap rec;
     current_score := rec_current_score rec;
     target_score :=
       Num.py_min 5
         (rec_current_score rec + rec_expected_improvement rec)%Q;
     recommended_training := rec_training_details rec;
     relevance_score := Num.round2 (rec_relevance_score rec);
     expected_improvement := rec_expected_improvement rec;
     timeline := rec_timeline rec |}.

(** The body of the loop of [_build_response], on the two parts of the
    response it appends to. *)
Definition build_step (st : list formatted_rec * development_path)
    (item : Z * recommendation) : list formatted_rec * development_path :=
  let i := item.1 in
  let rec := item.2 in
  let recs := (st.1 ++ [format_rec i rec])%list in
  let path := st.2 in
  let path :=
    if (rec_priority_level rec =? 1)%Z then
      {| critical := (critical path ++ [rec_competency_gap rec])%list;
         high_priority := high_priority path;
         medium_priority := medium_priority path |}
    else if (rec_priority_level rec =? 2)%Z then
      {| critical := critical path;
         high_priority :=
           (high_priority path ++ [rec_competency_gap rec])%list;
         medium_priority := medium_priority path |}
    else
      {| critical := critical path;
         high_priority := high_priority path;
         medium_priority :=
           (medium_priority path ++ [rec_competency_gap rec])%list |} in
  (recs, path).

(** [sum(xs)] over integers. *)
Definition sum (xs : list Z) : Z := fold_left Z.add xs 0%Z.

(** A training dictionary always has keys, so the guard
    [if rec['training_details']] of the two sums holds for every element.
    Every key the body reads is present, so its handler is never entered. *)
Definition _build_response (today : string) (assessment_data : assessment)
    (recommendations : list recommendation) : response :=
  let total_cost :=
    sum (map (fun rec => cost (rec_training_details rec)) recommendations) in
  let total_duration :=
    sum (map (fun rec => duration_days (rec_training_details rec))
           recommendations) in
  let final :=
    fold_left build_step (enumerate 1 recommendations)
      ([], {| critical := []; high_priority := []; medium_priority := [] |})
  in
  {| error := None;
     resp_employee_id := default "Unknown" (employee_id assessment_data);
     assessment_date := Some today;
     recommendations := final.1;
     resp_development_path := Some final.2;
     resp_summary :=
       {| total_recommendations := Z.of_nat (length recommendations);
          total_estimated_cost := total_cost;
          total_estimated_duration := total_duration |} |}.

(** The [try] block of [recommend_training]. *)
Definition recommend_training_body (self : system)
    (list_of_set : list string -> list string) (today : string)
    (assessment_data : assessment) : result response :=
  priority_areas ← identify_priority_areas assessment_data;
  let recommendations :=
    fold_left (recommend_area self list_of_set assessment_data)
      priority_areas [] in
  let recommendations := stable_sort rec_key_lt recommendations in
  let top_recommendations := take 3 recommendations in
  Ok (_build_response today assessment_data top_recommendations).

(** The response built by the [except] clause. *)
Definition error_response (e : exn) (assessment_data : assessment)
  : response :=
  {| error := Some (str_of_exn e);
     resp_employee_id := default "Unknown" (employee_id assessment_data);
     assessment_date := None;
     recommendations := [];
     resp_development_path := None;
     resp_summary :=
       {| total_recommendations := 0;
          total_estimated_cost := 0;
          total_estimated_duration := 0 |} |}.

Definition recommend_training (self : system)
    (list_of_set : list string -> list string) (today : string)
    (assessment_data : assessment) : response :=
  match recommend_training_body self list_of_set today assessment_data with
  | Ok r => r
  | Raise e => error_response e assessment_data
  end.

(** ** The catalog of [setup_competency_mapping], [setup_division_mapping]
    and [setup_training_database], in source order *)

Definition trs_competency_training_mapping : list (string * list string) :=
  [("core_information_seeking",
    ["Teknologi Informasi"; "Strategi SDM"]);
   ("core_resilience",
    ["SDM"; "Program Keahlian Khusus"]);
   ("core_achievement_orientation",
    ["Strategi SDM"; "Financial Management for Leader"]);
   ("core_concern_for_order",
    ["Audit Internal & Manajemen Risiko"; "Akuntansi & Keuangan"]);
   ("core_organizational_commitment",
    ["SDM"; "Strategi SDM"]);
   ("core_ethical_oriented",
    ["Hukum"; "Audit Internal dan Manajemen Risiko"]);
   ("managerial_building_collaborative_relationship",
    ["SDM"; "Strategi Pemasaran"]);
   ("managerial_business_savvy",
    ["Agribusiness Productivity Institute"; "Strategi SDM"]);
   ("managerial_customer_focus",
    ["Strategi Pemasaran"; "Agribusiness Productivity Institute"]);
   ("managerial_strategic_orientation",
    ["Transformasi Strategis"; "Strategi Transfrormasi"]);
   ("managerial_sustainability_mindset",
    ["Operasional Tanaman Tebu (On Farm)";
     "Operasional Tanaman Sawit (On Farm)"]);
   ("managerial_execution_focused",
    ["Operasional Pabrik Kelapa Sawit (Off Farm)";
     "Operasional Tanaman Karet (On Farm)"]);
   ("managerial_digital_literate",
    ["Teknologi Informasi"; "Transformasi Strategis"]);
   ("leadership_creativity_innovation",
    ["Transformasi Strategis"; "Strategi Transfrormasi"]);
   ("leadership_transformational_leadership",
    ["SDM"; "Strategi SDM"]);
   ("leadership_nurturing_empowering_people",
    ["SDM"; "Program Keahlian Khusus"]);
   ("leadership_managing_equality_diversity",
    ["SDM"; "Hukum"])].

Definition trs_division_mapping : list (string * list string) :=
  [("plantation",
    ["Operasional Tanaman"; "Agribusiness Productivity Institute"]);
   ("factory",
    ["Operasional Pabrik"]);
   ("finance",
    ["Akuntansi & Keuangan"; "Financial Management"]);
   ("hr",
    ["SDM"; "Strategi SDM"]);
   ("it",
    ["Teknologi Informasi"]);
   ("procurement",
    ["Pengadaan"]);
   ("audit",
    ["Audit Internal"]);
   ("legal",
    ["Hukum"]);
   ("strategy",
    ["Transformasi Strategis"; "Strategi"]);
   ("marketing",
    ["Strategi Pemasaran"])].

Definition trs_training_database : list (string * training) :=
  [("PL-2024-418",
    {| training_id := None;
       training_name :=
         "PENDEKATAN LOGIKA MENGIDENTIFIKASI ANOMALI PRODUKSI";
       school := "Agribusiness Productivity Institute";
       target_division := "plantation";
       target_level := "ALL";
       duration_days := 3;
       cost := 6000000;
       job_family := "Tanaman";
       learning_objectives :=
         ["Integrasi geospike dan lingkungan di perkebunan";
          "Seasonal effect di tanaman sawit";
          "Prinsip dasar pemahaman data produksi";
          "Metode identifikasi anomali di perkebunan"] |});
   ("PL-2024-P0153",
    {| training_id := None;
       training_name :=
         "Budidaya Tanaman Tebu - Persiapan Lahan & Kultivasi";
       school := "Operasional Tanaman Tebu (On Farm)";
       target_division := "plantation";
       target_level := "Operasional";
       duration_days := 5;
       cost := 5000000;
       job_family := "Tanaman";
       learning_objectives :=
         ["Teknik dasar kultivasi tebu";
          "Manajemen pengairan dan irigasi";
          "Pengendalian OPT tebu";
          "Sustainable farming practices"] |});
   ("PL-2024-P0154",
    {| training_id := None;
       training_name :=
         "Operasional Tanaman Sawit - Advanced Plantation Management";
       school := "Operasional Tanaman Sawit (On Farm)";
       target_division := "plantation";
       target_level := "Manager";
       duration_days := 4;
       cost := 7500000;
       job_family := "Tanaman";
       learning_objectives :=
         ["Advanced plantation management techniques";
          "Yield optimization strategies";
          "Team leadership in plantation operations";
          "Environmental sustainability practices"] |});
   ("FC-2024-201",
    {| training_id := None;
       training_name :=
         "Operasional Pabrik Kelapa Sawit - Process Optimization";
       school := "Operasional Pabrik Kelapa Sawit (Off Farm)";
       target_division := "factory";
       target_level := "ALL";
       duration_days := 6;
       cost := 8000000;
       job_family := "Pabrik";
       learning_objectives :=
         ["Advanced palm oil processing techniques";
          "Quality control and assurance";
          "Equipment maintenance and optimization";
          "Safety protocols and procedures"] |});
   ("FC-2024-202",
    {| training_id := None;
       training_name :=
         "Manufacturing Excellence & Lean Production";
       school := "Operasional Pabrik Kelapa Sawit (Off Farm)";
       target_division := "factory";
       target_level := "Supervisor";
       duration_days := 4;
       cost := 6500000;
       job_family := "Pabrik";
       learning_objectives :=
         ["Lean manufacturing principles";
          "Continuous improvement methodologies";
          "Team leadership in manufacturing";
          "Waste reduction techniques"] |});
   ("FN-2024-301",
    {| training_id := None;
       training_name :=
         "Financial Management for Leaders";
       school := "Financial Management for Leader (Jakarta)";
       target_division := "finance";
       target_level := "Manager";
       duration_days := 5;
       cost := 9000000;
       job_family := "Keuangan";
       learning_objectives :=
         ["Strategic financial planning";
          "Investment analysis and decision making";
          "Financial risk management";
          "Budget planning and control";
          "Leadership in finance function"] |});
   ("FN-2024-302",
    {| training_id := None;
       training_name :=
         "Advanced Accounting & Financial Reporting";
       school := "Akuntansi & Keuangan";
       target_division := "finance";
       target_level := "ALL";
       duration_days := 4;
       cost := 5500000;
       job_family := "Keuangan";
       learning_objectives :=
         ["Advanced accounting principles";
          "Financial reporting standards";
          "Digital accounting systems";
          "Compliance and regulatory requirements"] |});
   ("HR-2024-401",
    {| training_id := None;
       training_name :=
         "Strategic Human Resource Management";
       school := "SDM";
       target_division := "hr";
       target_level := "Manager";
       duration_days := 5;
       cost := 7000000;
       job_family := "SDM";
       learning_objectives :=
         ["Strategic HR planning and execution";
          "Talent management and development";
          "Employee engagement strategies";
          "Performance management systems";
          "Diversity and inclusion practices"] |});
   ("HR-2024-402",
    {| training_id := None;
       training_name :=
         "Employee Development & Training Design";
       school := "Program Keahlian Khusus";
       target_division := "hr";
       target_level := "ALL";
       duration_days := 4;
       cost := 5000000;
       job_family := "SDM";
       learning_objectives :=
         ["Training needs analysis";
          "Learning program design";
          "Adult learning principles";
          "Training evaluation methods"] |});
   ("IT-2024-501",
    {| training_id := None;
       training_name :=
         "Digital Transformation & Technology Leadership";
       school := "Teknologi Informasi";
       target_division := "it";
       target_level := "Manager";
       duration_days := 6;
       cost := 10000000;
       job_family := "IT";
       learning_objectives :=
         ["Digital transformation strategies";
          "IT governance and management";
          "Emerging technology evaluation";
          "Cybersecurity leadership";
          "Innovation management in IT"] |});
   ("IT-2024-502",
    {| training_id := None;
       training_name :=
         "Information Systems & Data Analytics";
       school := "Teknologi Informasi";
       target_division := "it";
       target_level := "ALL";
       duration_days := 5;
       cost := 7500000;
       job_family := "IT";
       learning_objectives :=
         ["Database design and management";
          "Data analytics and visualization";
          "Business intelligence systems";
          "System integration techniques"] |});
   ("PR-2024-601",
    {| training_id := None;
       training_name :=
         "Strategic Procurement & Supply Chain Management";
       school := "Pengadaan";
       target_division := "procurement";
       target_level := "Manager";
       duration_days := 5;
       cost := 8000000;
       job_family := "Pengadaan";
       learning_objectives :=
         ["Strategic sourcing methodologies";
          "Supplier relationship management";
          "Contract negotiation and management";
          "Supply chain optimization";
          "Risk management in procurement"] |});
   ("PR-2024-602",
    {| training_id := None;
       training_name :=
         "Procurement Operations & Vendor Management";
       school := "Pengadaan";
       target_division := "procurement";
       target_level := "ALL";
       duration_days := 4;
       cost := 5500000;
       job_family := "Pengadaan";
       learning_objectives :=
         ["Procurement processes and procedures";
          "Vendor evaluation and selection";
          "Cost analysis and budgeting";
          "Compliance and ethics in procurement"] |});
   ("AD-2024-701",
    {| training_id := None;
       training_name :=
         "Internal Audit & Risk Management Leadership";
       school := "Audit Internal & Manajemen Risiko";
       target_division := "audit";
       target_level := "Manager";
       duration_days := 6;
       cost := 9500000;
       job_family := "Audit";
       learning_objectives :=
         ["Advanced internal auditing techniques";
          "Enterprise risk management";
          "Audit leadership and team management";
          "Regulatory compliance frameworks";
          "Fraud detection and prevention"] |});
   ("AD-2024-702",
    {| training_id := None;
       training_name :=
         "Risk Assessment & Control Systems";
       school := "Audit Internal dan Manajemen Risiko";
       target_division := "audit";
       target_level := "ALL";
       duration_days := 4;
       cost := 6000000;
       job_family := "Audit";
       learning_objectives :=
         ["Risk identification and assessment";
          "Internal control evaluation";
          "Audit documentation and reporting";
          "Technology-assisted audit techniques"] |});
   ("LG-2024-801",
    {| training_id := None;
       training_name :=
         "Corporate Law & Regulatory Compliance";
       school := "Hukum";
       target_division := "legal";
       target_level := "ALL";
       duration_days := 5;
       cost := 7500000;
       job_family := "Hukum";
       learning_objectives :=
         ["Corporate governance principles";
          "Regulatory compliance management";
          "Contract law and negotiations";
          "Employment law and regulations";
          "Business ethics and compliance"] |});
   ("ST-2024-901",
    {| training_id := None;
       training_name :=
         "Strategic Transformation & Change Management";
       school := "Transformasi Strategis";
       target_division := "strategy";
       target_level := "Manager";
       duration_days := 7;
       cost := 12000000;
       job_family := "Strategi";
       learning_objectives :=
         ["Strategic planning and execution";
          "Change management methodologies";
          "Digital transformation strategies";
          "Innovation management";
          "Organizational development"] |});
   ("ST-2024-902",
    {| training_id := None;
       training_name :=
         "Marketing Strategy & Customer Excellence";
       school := "Strategi Pemasaran";
       target_division := "marketing";
       target_level := "ALL";
       duration_days := 4;
       cost := 6500000;
       job_family := "Pemasaran";
       learning_objectives :=
         ["Market analysis and segmentation";
          "Customer relationship management";
          "Brand management and positioning";
          "Digital marketing strategies"] |});
   ("GM-2024-001",
    {| training_id := None;
       training_name :=
         "Executive Leadership Development Program";
       school := "Strategi SDM";
       target_division := "ALL";
       target_level := "Senior Manager";
       duration_days := 10;
       cost := 15000000;
       job_family := "Umum";
       learning_objectives :=
         ["Executive leadership skills";
          "Strategic thinking and planning";
          "Organizational transformation";
          "High-performance team building";
          "Stakeholder management";
          "Innovation and change leadership"] |})].

(** The instance returned by [load_training_system()]. *)
Definition trs : system :=
  {| competency_training_mapping :=
       list_to_map trs_competency_training_mapping;
     division_mapping := list_to_map trs_division_mapping;
     training_database := trs_training_database |}.

(** An instance with nothing in its three tables. *)
Definition empty_system : system :=
  {| competency_training_mapping := ∅;
     division_mapping := ∅;
     training_database := [] |}.

(** ** Inputs used as examples *)

(** One admissible enumeration order of a set: first occurrences, in
    order of insertion. *)
Fixpoint first_seen (xs : list string) : list string :=
  match xs with
  | [] => []
  | x :: xs' =>
      x :: List.filter (fun y => negb (String.eqb x y)) (first_seen xs')
  end.

(** Another admissible order: the same elements, reversed. *)
Definition last_seen (xs : list string) : list string :=
  reverse (first_seen xs).

(** A single core score, an IT manager with senior experience. *)
Definition scenario_a : assessment :=
  {| employee_id := Some "EMP001";
     current_position := Some "Manager";
     division := Some "it";
     experience_level := Some "senior";
     core_competency_scores := Some [("information_seeking", PyNum 1.2)];
     managerial_competency_scores := Some [];
     leadership_competency_scores := Some [] |}.

(** The "Finance Staff" sample of the user interface, as a junior. *)
Definition finance_staff : assessment :=
  {| employee_id := Some "EMP002";
     current_position := Some "Staff";
     division := Some "finance";
     experience_level := Some "junior";
     core_competency_scores :=
       Some [("information_seeking", PyNum 2.8); ("resilience", PyNum 2.1);
             ("achievement_orientation", PyNum 1.9);
             ("concern_for_order", PyNum 1.5);
             ("organizational_commitment", PyNum 3.2);
             ("ethical_oriented", PyNum 1.8)];
     managerial_competency_scores :=
       Some [("building_collaborative_relationship", PyNum 3.0);
             ("business_savvy", PyNum 1.7); ("customer_focus", PyNum 2.9);
             ("strategic_orientation", PyNum 2.5);
             ("sustainability_mindset", PyNum 3.1);
             ("execution_focused", PyNum 2.8);
             ("digital_literate", PyNum 2.2)];
     leadership_competency_scores :=
       Some [("creativity_innovation", PyNum 2.6);
             ("transformational_leadership", PyNum 3.0);
             ("nurturing_empowering_people", PyNum 2.8);
             ("managing_equality_diversity", PyNum 3.1)] |}.

(** ** Assumptions on the inputs *)

(** What Python guarantees of [list(set(xs))]: every element of [xs],
    each once, in some order. *)
Definition set_enumeration (list_of_set : list string -> list string)
  : Prop :=
  ∀ xs, NoDup (list_of_set xs) ∧ ∀ x, x ∈ list_of_set xs ↔ x ∈ xs.

(** A value [float] accepts. *)
Definition numeric (v : pyscore) : Prop :=
  match v with PyNum _ => True | PyNone => False end.

(** The number a numeric value stands for. *)
Definition number (v : pyscore) : Q :=
  match v with PyNum q => q | PyNone => 0 end.

(** A score dictionary: its keys are distinct (it is a [dict]) and its
    values are numbers. *)
Definition score_dict (d : list (string * pyscore)) : Prop :=
  NoDup d.*1 ∧ Forall (fun kv => numeric kv.2) d.

Definition valid_scores (a : assessment) : Prop :=
  score_dict (default [] (core_competency_scores a))
  ∧ score_dict (default [] (managerial_competency_scores a))
  ∧ score_dict (default [] (leadership_competency_scores a)).

(** ** The merge of the gap analyzer, as the specification words it

    "Merges the three score mappings into one flat mapping, prefixing each
    key with its group name; missing groups are treated as empty." *)

Definition prefixed (prefix : string) (d : list (string * pyscore))
  : list (string * Q) :=
  map (fun kv => (prefix ++ kv.1, number kv.2)) d.

Definition merged_scores_spec (a : assessment) : list (string * Q) :=
  (prefixed "core_" (default [] (core_competency_scores a))
   ++ prefixed "managerial_" (default [] (managerial_competency_scores a))
   ++ prefixed "leadership_" (default [] (leadership_competency_scores a)))
  %list.

(** "Ascending by score". *)
Definition score_le (x y : string * Q) : Prop := (x.2 <= y.2)%Q.

(** The entries of a list of pairs whose score equals [q]. *)
Definition with_score (q : Q) (l : list (string * Q)) : list (string * Q) :=
  List.filter (fun kv => Qeq_bool kv.2 q) l.

(** ** The presentation code that reads scores *)

(** The loop of [create_priority_chart] that fills [colors], the
    [marker_color] of the bar chart, from the scores of the priority
    areas. *)
Definition priority_color (score : Q) : string :=
  if Num.ltb score 2 then "#ff4444"
  else if Num.ltb score 3 then "#ff8800"
  else if Num.ltb score 3.5 then "#2196F3"
  else "#4CAF50".

Definition create_priority_chart_colors (priority_areas : list (string * Q))
  : list string :=
  let scores := map (fun area => area.2) priority_areas in
  fold_left (fun colors score => (colors ++ [priority_color score])%list)
    scores [].

(** The badge of [display_training_card]: the pair
    [(priority_class, priority_level)] chosen from [rec['current_score']]. *)
Definition priority_badge (rec : formatted_rec) : string * string :=
  if Num.ltb (current_score rec) 2 then ("priority-critical", "CRITICAL")
  else if Num.ltb (current_score rec) 3 then ("priority-high", "HIGH")
  else ("priority-medium", "MEDIUM").

(** ** Invariants of the assembler *)

(** What [recommend_training] knows of a recommendation it built for the
    priority area [area]. *)
Definition built_for (self : system) (a : assessment) (area : string * Q)
    (r : recommendation) : Prop :=
  rec_competency_gap r = area.1
  ∧ rec_current_score r = area.2
  ∧ rec_priority_level r = get_priority_level area.2
  ∧ rec_expected_improvement r = Num.py_min 2 (5 - area.2)%Q
  ∧ rec_timeline r = _get_timeline (get_priority_level area.2)
  ∧ rec_relevance_score r
    = calculate_relevance_score area.1 area.2 (rec_training_details r) a
  ∧ ∃ schools school,
      competency_training_mapping self !! area.1 = Some schools
      ∧ school ∈ schools
      ∧ get_training_details self school = Some (rec_training_details r).

(** The order of the sort key [(priority_level, -relevance_score)]. *)
Definition rec_key_le (x y : recommendation) : Prop :=
  (rec_priority_level x < rec_priority_level y)%Z
  ∨ (rec_priority_level x = rec_priority_level y
     ∧ (rec_relevance_score y <= rec_relevance_score x)%Q).

(** * The engine on CPython's data

    The definitions above read a number as the rational its literal denotes
    and an assessment as a record of strings and score dictionaries. The two
    modules below follow the interpreter more closely: [Binary64] computes
    with IEEE 754 binary64 numbers, the [float] of CPython, and [Dyn] runs
    the engine on an assessment that is an arbitrary value, with the
    exceptions its operations raise and the two [try] statements that catch
    them. *)

(** A decimal literal denotes the binary64 number nearest to it, as in
    Python. *)
#[local] Set Warnings "-inexact-float,-register-all".

Abbreviation binary64 := PrimFloat.float.

Module Binary64.

(** [min(a, b)] and [max(a, b)]: the first argument unless the second is
    strictly smaller (resp. larger); a comparison with NaN is false. *)
Definition py_min (a b : binary64) : binary64 :=
  if (b <? a)%float then b else a.
Definition py_max (a b : binary64) : binary64 :=
  if (a <? b)%float then b else a.

Definition get_priority_level (score : binary64) : Z :=
  if (score <? 2.0)%float then 1
  else if (score <? 3.0)%float then 2
  else if (score <? 3.5)%float then 3
  else 4.

Definition position_multiplier (training_details : training)
    (employee_data : assessment) : binary64 :=
  let current_position :=
    Str.lower (default "" (current_position employee_data)) in
  if Str.contains "manager" current_position
     || Str.contains "supervisor" current_position then
    if is_management_training (training_name training_details)
    then 1.5%float else 1.0%float
  else 1.0%float.

Definition division_multiplier (training_details : training)
    (employee_data : assessment) : binary64 :=
  let target_division := Str.lower (target_division training_details) in
  let employee_division := Str.lower (default "" (division employee_data)) in
  if String.eqb target_division employee_division
     || String.eqb target_division "all"
  then 1.3%float else 1.0%float.

Definition experience_multiplier (training_details : training)
    (employee_data : assessment) : binary64 :=
  let experience_level :=
    Str.lower (default "" (experience_level employee_data)) in
  if String.eqb experience_level "junior" then
    if negb (is_advanced_training (training_name training_details))
    then 1.2%float else 1.0%float
  else if String.eqb experience_level "senior" then
    if is_advanced_training (training_name training_details)
    then 1.2%float else 1.0%float
  else 1.0%float.

(** [calculate_relevance_score] in the arithmetic of the interpreter: the
    subtraction and the three multiplications, from left to right, each
    rounded to binary64. *)
Definition calculate_relevance_score (competency : string)
    (current_score : binary64) (training_details : training)
    (employee_data : assessment) : binary64 :=
  let base_score := (5.0 - current_score)%float in
  let final_score :=
    (base_score * position_multiplier training_details employee_data
     * division_multiplier training_details employee_data
     * experience_multiplier training_details employee_data)%float in
  py_max 0.1 (py_min 10.0 final_score).

End Binary64.

Module Dyn.

(** ** Values

    The values an assessment decoded from JSON is made of. A [dict] is an
    association list in insertion order, its keys are strings and pairwise
    distinct. *)
Inductive value : Type :=
  | VNone
  | VBool (b : bool)
  | VInt (z : Z)
  | VFloat (f : binary64)
  | VStr (s : string)
  | VList (l : list value)
  | VDict (d : list (string * value)).

(** [type(v).__name__]. *)
Definition type_name (v : value) : string :=
  match v with
  | VNone => "NoneType"
  | VBool _ => "bool"
  | VInt _ => "int"
  | VFloat _ => "float"
  | VStr _ => "str"
  | VList _ => "list"
  | VDict _ => "dict"
  end.

(** The exception of an attribute access [v.attr] on a value whose type has
    no such attribute. *)
Definition attribute_error (v : value) (attr : string) : exn :=
  AttributeError
    ("'" ++ type_name v ++ "' object has no attribute '" ++ attr ++ "'").

Fixpoint dict_lookup {V : Type} (d : list (string * V)) (k : string)
  : option V :=
  match d with
  | [] => None
  | (k', v) :: d' => if String.eqb k' k then Some v else dict_lookup d' k
  end.

(** [d.get(key, default)]: of these values only a [dict] has [get]. *)
Definition get (d : value) (key : string) (default : value) : result value :=
  match d with
  | VDict d =>
      Ok (match dict_lookup d key with Some v => v | None => default end)
  | _ => Raise (attribute_error d "get")
  end.

(** [d.items()]: only a [dict] has [items]. *)
Definition items (d : value) : result (list (string * value)) :=
  match d with
  | VDict d => Ok d
  | _ => Raise (attribute_error d "items")
  end.

(** The receiver of [s.lower()]: only a [str] has [lower]. *)
Definition lower_receiver (s : value) : result string :=
  match s with
  | VStr s => Ok s
  | _ => Raise (attribute_error s "lower")
  end.

(** [float(z)] for an [int]: the nearest binary64 number, ties to even;
    [OverflowError] when that is no finite number. *)
Definition float_of_int (z : Z) : result binary64 :=
  match binary_normalize prec emax z 0 false with
  | S754_infinity _ => Raise (OverflowError "int too large to convert to float")
  | x => Ok (SF2Prim x)
  end.

(** What the engine takes from the interpreter and its environment:
    - [list_of_set xs] is [list(set(xs))];
    - [today] is [datetime.now().strftime('%Y-%m-%d')];
    - [float_of_str s] is [float(s)] for a [str], [None] when [s] is no
      number literal and [float] raises [ValueError];
    - [repr s] is [repr(s)] for a [str], which that [ValueError] quotes;
    - [round2 x] is [round(x, 2)]. *)
Section Runtime.
Context (list_of_set : list string -> list string) (today : string)
  (float_of_str : string -> option binary64) (repr : string -> string)
  (round2 : binary64 -> binary64).

(** [float(x)]. *)
Definition float (x : value) : result binary64 :=
  match x with
  | VFloat f => Ok f
  | VInt z => float_of_int z
  | VBool b => Ok (if b then 1.0 else 0.0)%float
  | VStr s =>
      match float_of_str s with
      | Some f => Ok f
      | None =>
          Raise (ValueError ("could not convert string to float: " ++ repr s))
      end
  | _ =>
      Raise (TypeError
        ("float() argument must be a string or a real number, not '"
         ++ type_name x ++ "'"))
  end.

(** A [for] loop whose body may raise: the state after the last element, or
    the first exception. *)
Fixpoint for_each {A S : Type} (body : S -> A -> result S) (xs : list A)
    (s : S) : result S :=
  match xs with
  | [] => Ok s
  | x :: xs' => s' ← body s x; for_each body xs' s'
  end.

(** [try: body except Exception as e: handler(e)], the handler itself being
    able to raise. *)
Definition try_except {A : Type} (body : result A)
    (handler : exn -> result A) : result A :=
  match body with
  | Ok a => Ok a
  | Raise e => handler e
  end.

(** ** Gap analyzer *)

Definition add_score (prefix : string)
    (all_scores : list (string * binary64)) (item : string * value)
  : result (list (string * binary64)) :=
  let competency := item.1 in
  let score := item.2 in
  x ← float score;
  Ok (dict_set all_scores (prefix ++ competency) x).

Definition score_lt (x y : string * binary64) : bool := (x.2 <? y.2)%float.

(** [sorted] is rendered by [stable_sort], which is the result of every
    stable sort when [<] orders the keys, that is when no score is NaN. *)
Definition identify_priority_areas (assessment_data : value)
  : result (list (string * binary64)) :=
  let all_scores := [] in
  core_scores ← get assessment_data "core_competency_scores" (VDict []);
  core_items ← items core_scores;
  all_scores ← for_each (add_score "core_") core_items all_scores;
  managerial_scores ←
    get assessment_data "managerial_competency_scores" (VDict []);
  managerial_items ← items managerial_scores;
  all_scores ← for_each (add_score "managerial_") managerial_items all_scores;
  leadership_scores ←
    get assessment_data "leadership_competency_scores" (VDict []);
  leadership_items ← items leadership_scores;
  all_scores ← for_each (add_score "leadership_") leadership_items all_scores;
  let priority_areas := stable_sort score_lt all_scores in
  Ok (take 5 priority_areas).

(** ** Context filter

    [filter_by_context] calls [lower] on [position], then on [division],
    then on [experience]; nothing else in it can raise. *)
Definition filter_by_context (self : system) (trainings : list string)
    (position division experience : value) : result (list string) :=
  position ← lower_receiver position;
  division ← lower_receiver division;
  experience ← lower_receiver experience;
  Ok (filter_by_context self list_of_set trainings position division
        experience).

(** ** Relevance scorer

    [calculate_relevance_score] looks up the position, the division and the
    experience of the employee, in this order, and calls [lower] on each. *)
Definition calculate_relevance_score (competency : string)
    (current_score : binary64) (training_details : training)
    (employee_data : value) : result binary64 :=
  current_position ← get employee_data "current_position" (VStr "");
  current_position ← lower_receiver current_position;
  employee_division ← get employee_data "division" (VStr "");
  employee_division ← lower_receiver employee_division;
  experience_level ← get employee_data "experience_level" (VStr "");
  experience_level ← lower_receiver experience_level;
  Ok (Binary64.calculate_relevance_score competency current_score
        training_details
        {| employee_id := None;
           current_position := Some current_position;
           division := Some employee_division;
           experience_level := Some experience_level;
           core_competency_scores := None;
           managerial_competency_scores := None;
           leadership_competency_scores := None |}).

(** ** Recommendation assembler *)

Record recommendation : Type := {
  rec_competency_gap : string;
  rec_current_score : binary64;
  rec_training_details : training;
  rec_relevance_score : binary64;
  rec_priority_level : Z;
  rec_expected_improvement : binary64;
  rec_timeline : string
}.

Record formatted_rec : Type := {
  priority : Z;
  competency_gap : string;
  current_score : binary64;
  target_score : binary64;
  recommended_training : training;
  relevance_score : binary64;
  expected_improvement : binary64;
  timeline : string
}.

(** The response dictionary; ['employee_id'] is whatever value the
    assessment holds under that key. *)
Record response : Type := {
  error : option string;
  resp_employee_id : value;
  assessment_date : option string;
  recommendations : list formatted_rec;
  resp_development_path : option development_path;
  resp_summary : summary
}.

Definition recommend_school (self : system) (assessment_data : value)
    (competency : string) (score : binary64)
    (recommendations : list recommendation) (training_school : string)
  : result (list recommendation) :=
  match get_training_details self training_school with
  | None => Ok recommendations
  | Some training_details =>
      relevance_score ←
        calculate_relevance_score competency score training_details
          assessment_data;
      let recommendation :=
        {| rec_competency_gap := competency;
           rec_current_score := score;
           rec_training_details := training_details;
           rec_relevance_score := relevance_score;
           rec_priority_level := Binary64.get_priority_level score;
           rec_expected_improvement :=
             Binary64.py_min 2.0 (5.0 - score)%float;
           rec_timeline :=
             _get_timeline (Binary64.get_priority_level score) |} in
      Ok (recommendations ++ [recommendation])%list
  end.

Definition recommend_area (self : system) (assessment_data : value)
    (recommendations : list recommendation) (area : string * binary64)
  : result (list recommendation) :=
  let competency := area.1 in
  let score := area.2 in
  let potential_trainings :=
    default [] (competency_training_mapping self !! competency) in
  if negb (truthy potential_trainings) then Ok recommendations
  else
    position ← get assessment_data "current_position" (VStr "");
    division ← get assessment_data "division" (VStr "");
    experience ← get assessment_data "experience_level" (VStr "");
    filtered_trainings ←
      filter_by_context self potential_trainings position division
        experience;
    for_each (recommend_school self assessment_data competency score)
      filtered_trainings recommendations.

(** The sort key [(priority_level, -relevance_score)]; a relevance score is
    never NaN. *)
Definition rec_key_lt (x y : recommendation) : bool :=
  if (rec_priority_level x =? rec_priority_level y)%Z then
    (- rec_relevance_score x <? - rec_relevance_score y)%float
  else (rec_priority_level x <? rec_priority_level y)%Z.

Definition format_rec (i : Z) (rec : recommendation) : formatted_rec :=
  {| priority := i;
     competency_gap := rec_competency_gap rec;
     current_score := rec_current_score rec;
     target_score :=
       Binary64.py_min 5.0
         (rec_current_score rec + rec_expected_improvement rec)%float;
     recommended_training := rec_training_details rec;
     relevance_score := round2 (rec_relevance_score rec);
     expected_improvement := rec_expected_improvement rec;
     timeline := rec_timeline rec |}.

Definition build_step (st : list formatted_rec * development_path)
    (item : Z * recommendation) : list formatted_rec * development_path :=
  let i := item.1 in
  let rec := item.2 in
  let recs := (st.1 ++ [format_rec i rec])%list in
  let path := st.2 in
  let path :=
    if (rec_priority_level rec =? 1)%Z then
      {| critical := (critical path ++ [rec_competency_gap rec])%list;
         high_priority := high_priority path;
         medium_priority := medium_priority path |}
    else if (rec_priority_level rec =? 2)%Z then
      {| critical := critical path;
         high_priority :=
           (high_priority path ++ [rec_competency_gap rec])%list;
         medium_priority := medium_priority path |}
    else
      {| critical := critical path;
         high_priority := high_priority path;
         medium_priority :=
           (medium_priority path ++ [rec_competency_gap rec])%list |} in
  (recs, path).

(** The [except] clause of [recommend_training], and of [_build_response]:
    the message shown by [st.error] is no part of the result; the response
    is built with a second [assessment_data.get]. *)
Definition error_response (e : exn) (assessment_data : value)
  : result response :=
  employee_id ← get assessment_data "employee_id" (VStr "Unknown");
  Ok {| error := Some (str_of_exn e);
        resp_employee_id := employee_id;
        assessment_date := None;
        recommendations := [];
        resp_development_path := None;
        resp_summary :=
          {| total_recommendations := 0;
             total_estimated_cost := 0;
             total_estimated_duration := 0 |} |}.

Definition _build_response (assessment_data : value)
    (recommendations : list recommendation) : result response :=
  try_except
    (let total_cost :=
       sum (map (fun rec => cost (rec_training_details rec))
              recommendations) in
     let total_duration :=
       sum (map (fun rec => duration_days (rec_training_details rec))
              recommendations) in
     employee_id ← get assessment_data "employee_id" (VStr "Unknown");
     let final :=
       fold_left build_step (enumerate 1 recommendations)
         ([],
          {| critical := []; high_priority := []; medium_priority := [] |})
     in
     Ok {| error := None;
           resp_employee_id := employee_id;
           assessment_date := Some today;
           recommendations := final.1;
           resp_development_path := Some final.2;
           resp_summary :=
             {| total_recommendations := Z.of_nat (length recommendations);
                total_estimated_cost := total_cost;
                total_estimated_duration := total_duration |} |})
    (fun e => error_response e assessment_data).

(** The [try] block of [recommend_training]. *)
Definition recommend_training_body (self : system) (assessment_data : value)
  : result response :=
  priority_areas ← identify_priority_areas assessment_data;
  recommendations ←
    for_each (recommend_area self assessment_data) priority_areas [];
  let recommendations := stable_sort rec_key_lt recommendations in
  let top_recommendations := take 3 recommendations in
  _build_response assessment_data top_recommendations.

Definition recommend_training (self : system) (assessment_data : value)
  : result response :=
  try_except (recommend_training_body self assessment_data)
    (fun e => error_response e assessment_data).

(** ** Well-formed assessments

    The conditions on a dictionary assessment under which no operation of
    [recommend_training] raises. *)

(** [float] accepts the value. *)
Definition is_number (v : value) : bool :=
  match float v with Ok _ => true | Raise _ => false end.

(** The group is absent, or a dictionary of values [float] accepts. *)
Definition group_ok (d : list (string * value)) (group : string) : bool :=
  match dict_lookup d group with
  | None => true
  | Some (VDict scores) => forallb (fun kv => is_number kv.2) scores
  | Some _ => false
  end.

Definition well_formed_scores (d : list (string * value)) : bool :=
  group_ok d "core_competency_scores"
  && group_ok d "managerial_competency_scores"
  && group_ok d "leadership_competency_scores".

(** The entry is absent, or a string. *)
Definition str_or_absent (d : list (string * value)) (key : string) : bool :=
  match dict_lookup d key with
  | None | Some (VStr _) => true
  | Some _ => false
  end.

Definition well_formed_context (d : list (string * value)) : bool :=
  str_or_absent d "current_position"
  && str_or_absent d "division"
  && str_or_absent d "experience_level".

(** The competency mapping has a school for the area. *)
Definition mapped (self : system) (area : string * binary64) : bool :=
  truthy (default [] (competency_training_mapping self !! area.1)).

End Runtime.

(** The assessment of scenario A as a dictionary, and three assessments that
    make an operation of the engine raise. *)
Definition scenario_a : value :=
  VDict
    [("employee_id", VStr "EMP001");
     ("current_position", VStr "Manager");
     ("division", VStr "it");
     ("experience_level", VStr "senior");
     ("core_competency_scores",
      VDict [("information_seeking", VFloat 1.2)]);
     ("managerial_competency_scores", VDict []);
     ("leadership_competency_scores", VDict [])].

Definition score_is_none : value :=
  VDict
    [("employee_id", VStr "EMP001");
     ("core_competency_scores",
      VDict [("information_seeking", VNone)])].

Definition position_is_none : value :=
  VDict
    [("employee_id", VStr "EMP002");
     ("current_position", VNone);
     ("division", VStr "it");
     ("experience_level", VStr "senior");
     ("core_competency_scores",
      VDict [("information_seeking", VFloat 1.2)])].

Definition scores_are_a_list : value :=
  VDict
    [("employee_id", VStr "EMP003");
     ("core_competency_scores", VList [VFloat 1.2])].

End Dyn.

(** * Properties *)

(** ** Comparisons of Python numbers *)

Lemma ltb_lt (x y : Q) : Num.ltb x y = true ↔ (x < y)%Q.
Proof.
  unfold Num.ltb. rewrite negb_true_iff.
  destruct (Qle_bool y x) eqn:E.
  - apply Qle_bool_iff in E. split; [discriminate | intros H; lra].
  - split; [intros _ | reflexivity].
    apply Qnot_le_lt. intros H. apply Qle_bool_iff in H. congruence.
Qed.

Lemma ltb_ge (x y : Q) : Num.ltb x y = false ↔ (y <= x)%Q.
Proof.
  rewrite <- not_true_iff_false, ltb_lt. split; intros H; lra.
Qed.

Ltac case_ltb :=
  repeat match goal with
  | |- context [Num.ltb ?x ?y] =>
      let E := fresh "E" in
      destruct (Num.ltb x y) eqn:E;
      [apply ltb_lt in E | apply ltb_ge in E]
  end.

Lemma py_min_spec (a b : Q) :
  ((b < a)%Q ∧ Num.py_min a b = b) ∨ ((a <= b)%Q ∧ Num.py_min a b = a).
Proof. unfold Num.py_min. case_ltb; [left | right]; split; auto. Qed.

Lemma py_max_spec (a b : Q) :
  ((a < b)%Q ∧ Num.py_max a b = b) ∨ ((b <= a)%Q ∧ Num.py_max a b = a).
Proof. unfold Num.py_max. case_ltb; [left | right]; split; auto. Qed.

(** ** Substring tests *)

Lemma app_nil_string (s : string) : "" ++ s = s.
Proof. reflexivity. Qed.

Lemma app_cons_string (c : ascii) (s t : string) :
  String c s ++ t = String c (s ++ t).
Proof. reflexivity. Qed.

Lemma prefix_app (sub s : string) :
  String.prefix sub s = true ↔ ∃ post, s = sub ++ post.
Proof.
  revert s. induction sub as [|c sub IH]; intros s.
  - split; [intros _; by exists s | by destruct s].
  - destruct s as [|d s]; simpl.
    + split; [done | intros [post H]; discriminate].
    + destruct (Ascii.ascii_dec c d) as [->|Hne].
      * rewrite IH. split; intros [post H]; exists post;
          rewrite app_cons_string in *; congruence.
      * split; [done | intros [post H]].
        rewrite app_cons_string in H. congruence.
Qed.

Lemma contains_substring (sub s : string) :
  Str.contains sub s = true ↔ Str.substring sub s.
Proof.
  unfold Str.substring. induction s as [|c s IH].
  - cbn [Str.contains]. rewrite orb_false_r, prefix_app. split.
    + intros [post H]. by exists "", post.
    + intros [pre [post H]]. destruct pre; [by exists post | discriminate].
  - cbn [Str.contains]. rewrite orb_true_iff, IH, prefix_app. split.
    + intros [[post H] | [pre [post H]]].
      * by exists "", post.
      * exists (String c pre), post. by rewrite app_cons_string, <- H.
    + intros [pre [post H]]. destruct pre as [|d pre].
      * left. by exists post.
      * right. exists pre, post. rewrite app_cons_string in H. congruence.
Qed.

Lemma contains_any_substring (keywords : list string) (s : string) :
  Str.contains_any keywords s = true
  ↔ ∃ k, k ∈ keywords ∧ Str.substring k s.
Proof.
  unfold Str.contains_any. rewrite existsb_exists.
  split; intros [k [Hk H]]; exists k.
  - by rewrite list_elem_of_In, <- contains_substring.
  - by rewrite <- list_elem_of_In, contains_substring.
Qed.

Lemma contains_any_false (keywords : list string) (s : string) :
  Str.contains_any keywords s = false
  ↔ ∀ k, k ∈ keywords → ¬ Str.substring k s.
Proof.
  rewrite <- not_true_iff_false, contains_any_substring. split.
  - intros H k Hk Hs. apply H. by exists k.
  - intros H [k [Hk Hs]]. by apply (H k).
Qed.

(** ** The primitives on concrete inputs *)

Example lower_school : Str.lower "Strategi SDM" = "strategi sdm".
Proof. reflexivity. Qed.

Example split_runs :
  Str.split "  Audit Internal	& Risiko " = ["Audit"; "Internal"; "&"; "Risiko"].
Proof. reflexivity. Qed.

Example strategic_not_in_strategi :
  Str.contains "strategic" (Str.lower "Strategi SDM") = false
  ∧ Str.contains "strategi" (Str.lower "Strategi SDM") = true.
Proof. split; reflexivity. Qed.

Example empty_in_every_string : Str.contains "" "" = true.
Proof. reflexivity. Qed.

Example round2_ties_to_even :
  Num.round2 8.892 = 8.89%Q ∧ Num.round2 0.125 = 0.12%Q
  ∧ Num.round2 0.135 = 0.14%Q.
Proof. repeat split; reflexivity. Qed.

Example min_max_keep_first_on_ties :
  Num.py_min 2 (4 # 2) = 2%Q ∧ Num.py_max 2 (4 # 2) = 2%Q.
Proof. split; reflexivity. Qed.

(** ** Priority bands *)

(** C3. [get_priority_level] is total and returns 1 exactly below 2.0, 2
    exactly on [2.0, 3.0), 3 exactly on [3.0, 3.5) and 4 exactly from 3.5
    on: the bands cover every score, never overlap, and each of the
    boundaries 2.0, 3.0 and 3.5 falls in the higher band. *)
Theorem get_priority_level_bands (score : Q) :
  (get_priority_level score = 1%Z ↔ (score < 2)%Q)
  ∧ (get_priority_level score = 2%Z ↔ (2 <= score)%Q ∧ (score < 3)%Q)
  ∧ (get_priority_level score = 3%Z ↔ (3 <= score)%Q ∧ (score < 3.5)%Q)
  ∧ (get_priority_level score = 4%Z ↔ (3.5 <= score)%Q)
  ∧ get_priority_level 2 = 2%Z
  ∧ get_priority_level 3 = 3%Z
  ∧ get_priority_level 3.5 = 4%Z.
Proof.
  split; [|split; [|split; [|split; [|by vm_compute]]]];
    unfold get_priority_level; case_ltb;
    (split; [intros H; try discriminate H; try split; lra
            | intros H; try reflexivity; exfalso; lra]).
Qed.

(** ** Relevance score *)

Lemma is_management_training_spec (training_name : string) :
  is_management_training training_name = true
  ↔ ∃ k, k ∈ mgmt_keywords ∧ Str.substring k (Str.lower training_name).
Proof.
  unfold is_management_training.
  destruct (String.eqb training_name "") eqn:E.
  - apply String.eqb_eq in E. subst. split; [done | intros H].
    apply contains_any_substring in H. by vm_compute in H.
  - apply contains_any_substring.
Qed.

Lemma is_advanced_training_spec (training_name : string) :
  is_advanced_training training_name = true
  ↔ ∃ k, k ∈ advanced_keywords ∧ Str.substring k (Str.lower training_name).
Proof.
  unfold is_advanced_training.
  destruct (String.eqb training_name "") eqn:E.
  - apply String.eqb_eq in E. subst. split; [done | intros H].
    apply contains_any_substring in H. by vm_compute in H.
  - apply contains_any_substring.
Qed.

Lemma position_multiplier_spec (td : training) (emp : assessment) :
  let position := Str.lower (default "" (current_position emp)) in
  (position_multiplier td emp = 1.5%Q ∨ position_multiplier td emp = 1%Q)
  ∧ (position_multiplier td emp = 1.5%Q
     ↔ (Str.substring "manager" position
        ∨ Str.substring "supervisor" position)
       ∧ ∃ k, k ∈ mgmt_keywords
              ∧ Str.substring k (Str.lower (training_name td))).
Proof.
  intros position. unfold position_multiplier. fold position.
  rewrite <- is_management_training_spec, <- !contains_substring,
    <- orb_true_iff.
  destruct (Str.contains "manager" position
            || Str.contains "supervisor" position);
    destruct (is_management_training (training_name td));
    (split; [auto | split; [intros H; try discriminate H; auto
                           | intros [H1 H2]; try discriminate; auto]]).
Qed.

Lemma division_multiplier_spec (td : training) (emp : assessment) :
  let target := Str.lower (target_division td) in
  let employee_division := Str.lower (default "" (division emp)) in
  (division_multiplier td emp = 1.3%Q ∨ division_multiplier td emp = 1%Q)
  ∧ (division_multiplier td emp = 1.3%Q
     ↔ target = employee_division ∨ target = "all").
Proof.
  intros target employee_division. unfold division_multiplier.
  fold target. fold employee_division.
  rewrite <- !String.eqb_eq, <- orb_true_iff.
  destruct (String.eqb target employee_division
            || String.eqb target "all");
    (split; [auto | split; [intros H; try discriminate H; auto
                           | intros H; try discriminate; auto]]).
Qed.

Lemma experience_multiplier_spec (td : training) (emp : assessment) :
  let experience := Str.lower (default "" (experience_level emp)) in
  let advanced :=
    ∃ k, k ∈ advanced_keywords
         ∧ Str.substring k (Str.lower (training_name td)) in
  (experience_multiplier td emp = 1.2%Q ∨ experience_multiplier td emp = 1%Q)
  ∧ (experience_multiplier td emp = 1.2%Q
     ↔ (experience = "junior" ∧ ¬ advanced)
       ∨ (experience = "senior" ∧ advanced)).
Proof.
  intros experience advanced. unfold experience_multiplier.
  fold experience. subst advanced.
  rewrite <- is_advanced_training_spec.
  destruct (String.eqb experience "junior") eqn:Ej.
  - apply String.eqb_eq in Ej. rewrite Ej.
    destruct (is_advanced_training (training_name td)); simpl;
      (split; [auto | split; [intros H; try discriminate H; auto
                             | intros [[_ H]|[H _]]; try discriminate H;
                               try done]]).
  - apply String.eqb_neq in Ej.
    destruct (String.eqb experience "senior") eqn:Es.
    + apply String.eqb_eq in Es. rewrite Es.
      destruct (is_advanced_training (training_name td));
        (split; [auto | split; [intros H; try discriminate H; auto
                               | intros [[H _]|[_ H]]; try discriminate H;
                                 try done]]).
    + apply String.eqb_neq in Es.
      split; [auto | split; [intros H; discriminate H
                            | intros [[H _]|[H _]]; done]].
Qed.

(** ** Order of binary64 numbers *)

Ltac zp_cases :=
  repeat match goal with
  | H : context [(?a ?= ?b)%Z] |- _ => destruct (Z.compare_spec a b)
  | |- context [(?a ?= ?b)%Z] => destruct (Z.compare_spec a b)
  | H : context [Pos.compare_cont Eq ?a ?b] |- _ =>
      change (Pos.compare_cont Eq a b) with (Pos.compare a b) in *;
      destruct (Pos.compare_spec a b)
  | |- context [Pos.compare_cont Eq ?a ?b] =>
      change (Pos.compare_cont Eq a b) with (Pos.compare a b) in *;
      destruct (Pos.compare_spec a b)
  end.

Lemma SFcompare_antisym (x y : spec_float) (c : comparison) :
  SFcompare x y = Some c → SFcompare y x = Some (CompOpp c).
Proof.
  destruct x as [sx|sx| |sx mx ex], y as [sy|sy| |sy my ey]; simpl;
    try discriminate; try destruct sx; try destruct sy;
    intros [= <-]; try reflexivity; f_equal; zp_cases; simpl;
    try reflexivity; lia.
Qed.

Lemma SFcompare_le_lt_trans (x y z : spec_float) (c : comparison) :
  SFcompare x y = Some c → c ≠ Gt → SFcompare y z = Some Lt →
  SFcompare x z = Some Lt.
Proof.
  destruct x as [sx|sx| |sx mx ex], y as [sy|sy| |sy my ey],
    z as [sz|sz| |sz mz ez]; simpl;
    try discriminate; try destruct sx; try destruct sy; try destruct sz;
    try discriminate; try reflexivity;
    intros [= <-] Hc H2; try congruence;
    f_equal; zp_cases; simpl in *;
    try discriminate; try reflexivity; try congruence; try lia.
Qed.

Lemma flt_fle (x y : PrimFloat.float) :
  (x <? y)%float = true → (x <=? y)%float = true.
Proof.
  rewrite ltb_spec, leb_spec. unfold SFltb, SFleb.
  by destruct (SFcompare _ _) as [[]|].
Qed.

Lemma fle_not_flt (x y : PrimFloat.float) :
  (x <=? y)%float = true → (y <? x)%float = false.
Proof.
  rewrite ltb_spec, leb_spec. unfold SFltb, SFleb.
  destruct (SFcompare (Prim2SF x) (Prim2SF y)) as [c|] eqn:E; [|done].
  rewrite (SFcompare_antisym _ _ _ E). by destruct c.
Qed.

Lemma fle_flt_trans (x y z : PrimFloat.float) :
  (x <=? y)%float = true → (y <? z)%float = true → (x <? z)%float = true.
Proof.
  rewrite !ltb_spec, leb_spec. unfold SFltb, SFleb.
  destruct (SFcompare (Prim2SF x) (Prim2SF y)) as [c|] eqn:E1; [|done].
  destruct (SFcompare (Prim2SF y) (Prim2SF z)) as [[]|] eqn:E2; try done.
  intros Hc _.
  rewrite (SFcompare_le_lt_trans _ _ _ c E1); [done| |done].
  by destruct c.
Qed.

Lemma nan_not_flt (x y : PrimFloat.float) :
  PrimFloat.is_nan x = true → (x <? y)%float = false.
Proof.
  unfold PrimFloat.is_nan.
  rewrite FloatAxioms.eqb_spec, FloatAxioms.ltb_spec. unfold SFeqb, SFltb.
  destruct (Prim2SF x) as [s|s| |s m e]; simpl; try done.
  - by destruct s.
  - destruct s; rewrite Z.compare_refl;
      change (Pos.compare_cont Eq m m) with (m ?= m)%positive;
      by rewrite Pos.compare_refl.
Qed.

Lemma clamp_binary64 (x : PrimFloat.float) :
  let r := Binary64.py_max 0.1 (Binary64.py_min 10 x) in
  ((x <=? 0.1)%float = true → r = 0.1%float)
  ∧ ((0.1 <? x)%float = true ∧ (x <? 10)%float = true → r = x)
  ∧ ((10 <=? x)%float = true → r = 10%float)
  ∧ (PrimFloat.is_nan x = true → r = 10%float)
  ∧ (0.1 <=? r)%float = true
  ∧ (r <=? 10)%float = true.
Proof.
  unfold Binary64.py_max, Binary64.py_min. cbv zeta.
  assert (H10 : (0.1 <? 10)%float = true) by done.
  repeat split.
  - intros Hx. rewrite (fle_flt_trans x 0.1 10 Hx H10).
    by rewrite (fle_not_flt _ _ Hx).
  - intros [H1 H2]. by rewrite H2, H1.
  - intros Hx. by rewrite (fle_not_flt _ _ Hx), H10.
  - intros Hx. by rewrite (nan_not_flt _ _ Hx), H10.
  - destruct (x <? 10)%float; [|by rewrite H10].
    destruct (0.1 <? x)%float eqn:E; [by apply flt_fle | done].
  - destruct (x <? 10)%float eqn:E1; [|by rewrite H10].
    destruct (0.1 <? x)%float eqn:E; [by apply flt_fle | done].
Qed.

(** ** Relevance scorer in binary64 *)

Ltac float_neq :=
  let H := fresh in
  intros H; apply (f_equal (fun x => (1 <? x)%float)) in H;
  vm_compute in H; discriminate H.

Lemma binary64_position_multiplier_spec (td : training) (emp : assessment) :
  let position := Str.lower (default "" (current_position emp)) in
  (Binary64.position_multiplier td emp = 1.5%float
   ∨ Binary64.position_multiplier td emp = 1%float)
  ∧ (Binary64.position_multiplier td emp = 1.5%float
     ↔ (Str.substring "manager" position
        ∨ Str.substring "supervisor" position)
       ∧ ∃ k, k ∈ mgmt_keywords
              ∧ Str.substring k (Str.lower (training_name td))).
Proof.
  intros position. unfold Binary64.position_multiplier. fold position.
  rewrite <- is_management_training_spec, <- !contains_substring,
    <- orb_true_iff.
  destruct (Str.contains "manager" position
            || Str.contains "supervisor" position);
    destruct (is_management_training (training_name td));
    (split; [auto|]; split;
     [ intros H; try (by auto); exfalso; revert H; float_neq
     | intros [H1 H2]; try discriminate; auto ]).
Qed.

Lemma binary64_division_multiplier_spec (td : training) (emp : assessment) :
  let target := Str.lower (target_division td) in
  let employee_division := Str.lower (default "" (division emp)) in
  (Binary64.division_multiplier td emp = 1.3%float
   ∨ Binary64.division_multiplier td emp = 1%float)
  ∧ (Binary64.division_multiplier td emp = 1.3%float
     ↔ target = employee_division ∨ target = "all").
Proof.
  intros target employee_division. unfold Binary64.division_multiplier.
  fold target. fold employee_division.
  rewrite <- !String.eqb_eq, <- orb_true_iff.
  destruct (String.eqb target employee_division
            || String.eqb target "all");
    (split; [auto|]; split;
     [ intros H; try (by auto); exfalso; revert H; float_neq
     | intros H; try discriminate; auto ]).
Qed.

Lemma binary64_experience_multiplier_spec (td : training) (emp : assessment) :
  let experience := Str.lower (default "" (experience_level emp)) in
  let advanced :=
    ∃ k, k ∈ advanced_keywords
         ∧ Str.substring k (Str.lower (training_name td)) in
  (Binary64.experience_multiplier td emp = 1.2%float
   ∨ Binary64.experience_multiplier td emp = 1%float)
  ∧ (Binary64.experience_multiplier td emp = 1.2%float
     ↔ (experience = "junior" ∧ ¬ advanced)
       ∨ (experience = "senior" ∧ advanced)).
Proof.
  intros experience advanced. unfold Binary64.experience_multiplier.
  fold experience. subst advanced.
  rewrite <- is_advanced_training_spec.
  destruct (String.eqb experience "junior") eqn:Ej.
  - apply String.eqb_eq in Ej. rewrite Ej.
    destruct (is_advanced_training (training_name td)); simpl;
      (split; [auto|]; split;
       [ intros H; try (exfalso; revert H; float_neq); auto
       | intros [[_ H]|[H _]]; try discriminate H; try done ]).
  - apply String.eqb_neq in Ej.
    destruct (String.eqb experience "senior") eqn:Es.
    + apply String.eqb_eq in Es. rewrite Es.
      destruct (is_advanced_training (training_name td));
        (split; [auto|]; split;
         [ intros H; try (exfalso; revert H; float_neq); auto
         | intros [[H _]|[_ H]]; try discriminate H; try done ]).
    + apply String.eqb_neq in Es.
      split; [auto | split; [intros H; exfalso; revert H; float_neq
                            | intros [[H _]|[H _]]; done]].
Qed.

(** C4. In the arithmetic of the interpreter, [calculate_relevance_score]
    returns (5.0 - current_score) * position_multiplier
    * division_multiplier * experience_multiplier, each operation rounded
    to binary64, clamped to [0.1, 10.0]: the product itself when it lies
    strictly between the bounds, 0.1 when it is at most 0.1, 10.0 when it
    is at least 10.0, and also 10.0 when it is NaN. The position
    multiplier is 1.5 exactly when the
    lower-cased position contains "manager" or "supervisor" and the
    lower-cased training name contains a management keyword (else 1), the
    division multiplier is 1.3 exactly when the lower-cased target division
    equals the lower-cased employee division or is "all" (else 1), and the
    experience multiplier is 1.2 exactly when experience is junior and the
    name has no advanced keyword or experience is senior and it has one
    (else 1); the result lies in [0.1, 10.0]. *)
Theorem calculate_relevance_score_binary64 (competency : string)
    (current_score : binary64) (td : training) (emp : assessment) :
  let position := Str.lower (default "" (current_position emp)) in
  let name := Str.lower (training_name td) in
  let target := Str.lower (target_division td) in
  let employee_division := Str.lower (default "" (division emp)) in
  let experience := Str.lower (default "" (experience_level emp)) in
  let management :=
    ∃ k, k ∈ ["strategi"; "leadership"; "management"; "manajemen";
              "strategic"; "executive"]
         ∧ Str.substring k name in
  let advanced :=
    ∃ k, k ∈ ["advanced"; "strategic"; "transformasi"; "leadership";
              "executive"]
         ∧ Str.substring k name in
  let r :=
    Binary64.calculate_relevance_score competency current_score td emp in
  ∃ pm dm em : binary64,
    (pm = 1.5%float ∨ pm = 1%float)
    ∧ (pm = 1.5%float
       ↔ (Str.substring "manager" position
          ∨ Str.substring "supervisor" position) ∧ management)
    ∧ (dm = 1.3%float ∨ dm = 1%float)
    ∧ (dm = 1.3%float ↔ target = employee_division ∨ target = "all")
    ∧ (em = 1.2%float ∨ em = 1%float)
    ∧ (em = 1.2%float
       ↔ (experience = "junior" ∧ ¬ advanced)
         ∨ (experience = "senior" ∧ advanced))
    ∧ (let x := ((5 - current_score) * pm * dm * em)%float in
       ((x <=? 0.1)%float = true → r = 0.1%float)
       ∧ ((0.1 <? x)%float = true ∧ (x <? 10)%float = true → r = x)
       ∧ ((10 <=? x)%float = true → r = 10%float)
       ∧ (PrimFloat.is_nan x = true → r = 10%float))
    ∧ (0.1 <=? r)%float = true ∧ (r <=? 10)%float = true.
Proof.
  intros position name target employee_division experience management
    advanced r.
  exists (Binary64.position_multiplier td emp),
    (Binary64.division_multiplier td emp),
    (Binary64.experience_multiplier td emp).
  destruct (binary64_position_multiplier_spec td emp) as [Hp1 Hp2].
  destruct (binary64_division_multiplier_spec td emp) as [Hd1 Hd2].
  destruct (binary64_experience_multiplier_spec td emp) as [He1 He2].
  do 6 (split; [assumption|]).
  subst r. unfold Binary64.calculate_relevance_score. cbv zeta.
  match goal with |- context [Binary64.py_min 10 ?x] =>
    destruct (clamp_binary64 x) as (H1 & H2 & H3 & H4 & H5 & H6)
  end.
  repeat split; assumption.
Qed.

(** Rounding shows in the result: a manager of the IT division, senior, with
    a score of 1.0 gets 9.3600000000000012 for the IT leadership training,
    the binary64 value of 4.0 * 1.5 * 1.3 * 1.2, and not 9.36. *)
Lemma calculate_relevance_score_rounds :
  let td :=
    default (generic_training "") (snd <$> trs_training_database !! 9%nat) in
  training_name td = "Digital Transformation & Technology Leadership"
  ∧ Binary64.calculate_relevance_score "core_information_seeking" 1.0 td
      scenario_a
    = 9.3600000000000012%float
  ∧ (9.36 <? Binary64.calculate_relevance_score "core_information_seeking"
               1.0 td scenario_a)%float = true.
Proof. repeat split; by vm_compute. Qed.

(** ** Context filter *)

Lemma first_seen_enumeration : set_enumeration first_seen.
Proof.
  intros xs. induction xs as [|x xs [IHnd IHin]]; simpl.
  - split; [constructor | done].
  - split.
    + constructor.
      * rewrite list_elem_of_In, filter_In, negb_true_iff.
        intros [_ H]. by rewrite String.eqb_refl in H.
      * by apply NoDup_ListNoDup, List.NoDup_filter, NoDup_ListNoDup.
    + intros y. rewrite !elem_of_cons, list_elem_of_In, filter_In,
        <- list_elem_of_In, IHin, negb_true_iff, String.eqb_neq.
      destruct (decide (y = x)) as [->|Hne]; intuition congruence.
Qed.

Section ContextFilter.
Variable self : system.
Variable list_of_set : list string -> list string.
Hypothesis list_of_set_enumerates : set_enumeration list_of_set.

(** As a set, the result is the candidate list, less the candidates with a
    junior-excluded keyword when the experience is junior. *)
Lemma filter_by_context_members
    (trainings : list string) (position division experience t : string) :
  t ∈ filter_by_context self list_of_set trainings position division
        experience
  ↔ t ∈ trainings
    ∧ (Str.lower experience = "junior"
       → Str.contains_any junior_excluded_keywords (Str.lower t) = false).
Proof.
  unfold filter_by_context.
  etransitivity; [apply (proj2 (list_of_set_enumerates _))|].
  rewrite !list_elem_of_In.
  destruct (String.eqb (Str.lower experience) "junior") eqn:Ej;
    [apply String.eqb_eq in Ej | apply String.eqb_neq in Ej];
    destruct (is_manager_position position);
    destruct (truthy _);
    try destruct (String.eqb (Str.lower experience) "senior");
    rewrite ?filter_In, ?in_app_iff, ?filter_In, ?negb_true_iff;
    tauto.
Qed.

Lemma filter_by_context_NoDup
    (trainings : list string) (position division experience : string) :
  NoDup (filter_by_context self list_of_set trainings position division
           experience).
Proof. apply list_of_set_enumerates. Qed.
End ContextFilter.

(** C6. When the experience is junior (compared in lower case, as the code
    does), [filter_by_context] returns exactly the candidates whose
    lower-cased name contains none of "advanced", "strategic",
    "transformasi", "executive": every such candidate of the accumulated
    list is removed, so no returned school name contains one of them. *)
Theorem filter_by_context_junior (self : system)
    (list_of_set : list string -> list string)
    (trainings : list string) (position division experience : string) :
  set_enumeration list_of_set →
  Str.lower experience = "junior" →
  let result :=
    filter_by_context self list_of_set trainings position division
      experience in
  let excluded (t : string) :=
    ∃ k, k ∈ ["advanced"; "strategic"; "transformasi"; "executive"]
         ∧ Str.substring k (Str.lower t) in
  (∀ t, t ∈ result → ¬ excluded t)
  ∧ (∀ t, t ∈ result ↔ t ∈ trainings ∧ ¬ excluded t).
Proof.
  intros Hset Hj result excluded.
  assert (Hmem : ∀ t, t ∈ result ↔ t ∈ trainings ∧ ¬ excluded t).
  { intros t. subst result excluded.
    rewrite (filter_by_context_members self list_of_set Hset).
    rewrite <- contains_any_substring, not_true_iff_false.
    unfold junior_excluded_keywords. tauto. }
  split; [|exact Hmem].
  intros t Ht. by apply Hmem in Ht as [_ Ht].
Qed.

Lemma filter_by_context_junior_witness :
  let result :=
    filter_by_context trs first_seen
      ["Transformasi Strategis"; "Teknologi Informasi"; "Advanced SDM"]
      "Manager" "it" "Junior" in
  result = ["Teknologi Informasi"]
  ∧ ∀ t, t ∈ result
         → ¬ ∃ k, k ∈ ["advanced"; "strategic"; "transformasi"; "executive"]
                  ∧ Str.substring k (Str.lower t).
Proof.
  split; [by vm_compute|].
  apply (filter_by_context_junior trs first_seen
           ["Transformasi Strategis"; "Teknologi Informasi"; "Advanced SDM"]
           "Manager" "it" "Junior").
  - exact first_seen_enumeration.
  - reflexivity.
Defined.

(** C10. Whatever the candidate list, position, division and experience,
    every school name returned by [filter_by_context] is one of the
    candidates, and the returned list has no duplicates. *)
Theorem filter_by_context_subset_nodup (self : system)
    (list_of_set : list string -> list string)
    (trainings : list string) (position division experience : string) :
  set_enumeration list_of_set →
  let result :=
    filter_by_context self list_of_set trainings position division
      experience in
  (∀ t, t ∈ result → t ∈ trainings) ∧ NoDup result.
Proof.
  intros Hset result. split.
  - intros t Ht.
    by apply (filter_by_context_members self list_of_set Hset) in Ht as [Ht _].
  - by apply filter_by_context_NoDup.
Qed.

Lemma filter_by_context_subset_nodup_witness :
  let result :=
    filter_by_context trs first_seen ["Teknologi Informasi"; "Strategi SDM"]
      "Manager" "it" "senior" in
  result = ["Teknologi Informasi"; "Strategi SDM"]
  ∧ (∀ t, t ∈ result → t ∈ ["Teknologi Informasi"; "Strategi SDM"])
  ∧ NoDup result.
Proof.
  split; [by vm_compute|].
  apply (filter_by_context_subset_nodup trs first_seen
           ["Teknologi Informasi"; "Strategi SDM"] "Manager" "it" "senior").
  exact first_seen_enumeration.
Defined.

(** ** Training resolver *)

Lemma filter_first {A : Type} (f : A → bool) (before after : list A) (x : A) :
  f x = true → (∀ e, e ∈ before → f e = false) →
  List.filter f (before ++ x :: after) = x :: List.filter f after.
Proof.
  intros Hx. induction before as [|b before IH]; intros Hb; simpl.
  - by rewrite Hx.
  - rewrite (Hb b) by left. apply IH. intros e He. apply Hb. by right.
Qed.

Lemma find_first {A : Type} (f : A → bool) (before after : list A) (x : A) :
  f x = true → (∀ e, e ∈ before → f e = false) →
  List.find f (before ++ x :: after) = Some x.
Proof.
  intros Hx. induction before as [|b before IH]; intros Hb; simpl.
  - by rewrite Hx.
  - rewrite (Hb b) by left. apply IH. intros e He. apply Hb. by right.
Qed.

Lemma school_matches_spec (training_school : string)
    (entry : string * training) :
  school_matches training_school entry = true
  ↔ Str.substring (Str.lower training_school) (Str.lower (school entry.2)).
Proof. apply contains_substring. Qed.

Lemma school_word_matches_spec (training_school : string)
    (entry : string * training) :
  school_word_matches training_school entry = true
  ↔ ∃ word, word ∈ Str.split (Str.lower training_school)
            ∧ Str.substring word (Str.lower (school entry.2)).
Proof. apply contains_any_substring. Qed.

Lemma not_true_false_all {A : Type} (f : A → bool) (P : A → Prop)
    (l : list A) :
  (∀ e, f e = true ↔ P e) →
  (∀ e, e ∈ l → ¬ P e) → ∀ e, e ∈ l → f e = false.
Proof.
  intros Hf Hl e He. apply not_true_iff_false. rewrite Hf. by apply Hl.
Qed.

(** C5. [get_training_details] returns a record for every school name. It
    is the first catalog entry (in catalog order, with its key as
    [training_id]) whose lower-cased school field contains the lower-cased
    school name; failing that, the first entry whose school field contains
    one of the whitespace-delimited words of the lower-cased school name;
    failing that, the synthesized placeholder. For "Nonexistent School XYZ"
    the result has [training_id] "GENERIC_NONEXISTENT_SCHOOL_XYZ",
    [duration_days] 3 and [cost] 5000000, with the shipped catalog as with
    an empty one. *)
Theorem get_training_details_tiers (self : system)
    (training_school : string) :
  let db := training_database self in
  let exact (entry : string * training) :=
    Str.substring (Str.lower training_school)
      (Str.lower (school entry.2)) in
  let partial (entry : string * training) :=
    ∃ word, word ∈ Str.split (Str.lower training_school)
            ∧ Str.substring word (Str.lower (school entry.2)) in
  (∃ r, get_training_details self training_school = Some r
     ∧ (∀ before entry after,
          db = (before ++ entry :: after)%list →
          exact entry → (∀ e, e ∈ before → ¬ exact e) →
          r = with_training_id entry.2 entry.1)
     ∧ ((∀ e, e ∈ db → ¬ exact e) →
        ∀ before entry after,
          db = (before ++ entry :: after)%list →
          partial entry → (∀ e, e ∈ before → ¬ partial e) →
          r = with_training_id entry.2 entry.1)
     ∧ ((∀ e, e ∈ db → ¬ exact e ∧ ¬ partial e) →
        r = generic_training training_school))
  ∧ (∀ catalog, catalog = trs ∨ catalog = empty_system →
       ∃ r, get_training_details catalog "Nonexistent School XYZ" = Some r
            ∧ training_id r = Some "GENERIC_NONEXISTENT_SCHOOL_XYZ"
            ∧ duration_days r = 3%Z
            ∧ cost r = 5000000%Z).
Proof.
  intros db exact partial. split.
  2: { intros catalog [->| ->]; eexists;
         (split; [by vm_compute | by vm_compute]). }
  assert (Hexact : ∀ e, school_matches training_school e = true ↔ exact e)
    by apply school_matches_spec.
  assert (Hpartial :
            ∀ e, school_word_matches training_school e = true ↔ partial e)
    by apply school_word_matches_spec.
  unfold get_training_details. fold db.
  destruct (List.filter (school_matches training_school) db)
    as [|x rest] eqn:Efilter; simpl.
  - assert (Hnone : ∀ e, e ∈ db → ¬ exact e).
    { intros e He Hx. apply Hexact in Hx.
      assert (Hin : In e (List.filter (school_matches training_school) db))
        by (apply filter_In; split; [by apply list_elem_of_In | done]).
      by rewrite Efilter in Hin. }
    destruct (List.find (school_word_matches training_school) db)
      as [x|] eqn:Efind.
    + eexists. split; [reflexivity|]. split; [|split].
      * intros before entry after Hdb Hx _. exfalso.
        apply (Hnone entry); [|done].
        rewrite Hdb, elem_of_app, elem_of_cons. auto.
      * intros _ before entry after Hdb Hp Hbefore.
        rewrite Hdb, (find_first _ before after entry) in Efind.
        -- congruence.
        -- by apply Hpartial.
        -- by apply (not_true_false_all _ partial).
      * intros Hno. exfalso. apply find_some in Efind as [Hin Hx].
        apply list_elem_of_In in Hin. apply Hpartial in Hx.
        by apply (proj2 (Hno x Hin)).
    + eexists. split; [reflexivity|]. split; [|split].
      * intros before entry after Hdb Hx _. exfalso.
        apply (Hnone entry); [|done].
        rewrite Hdb, elem_of_app, elem_of_cons. auto.
      * intros _ before entry after Hdb Hp _. exfalso.
        apply Hpartial in Hp.
        rewrite (find_none _ _ Efind entry) in Hp; [done|].
        apply list_elem_of_In. rewrite Hdb, elem_of_app, elem_of_cons. auto.
      * done.
  - assert (Hx : In x (List.filter (school_matches training_school) db))
      by (rewrite Efilter; by left).
    apply filter_In in Hx as [Hin Hx]. apply list_elem_of_In in Hin.
    apply Hexact in Hx.
    eexists. split; [reflexivity|]. split; [|split].
    + intros before entry after Hdb He Hbefore.
      rewrite Hdb, (filter_first _ before after entry) in Efilter.
      * congruence.
      * by apply Hexact.
      * by apply (not_true_false_all _ exact).
    + intros Hno. exfalso. by apply (Hno x Hin).
    + intros Hno. exfalso. by apply (proj1 (Hno x Hin)).
Qed.

(** ** Stable sort *)

Section StableSortFacts.
Context {A : Type} (lt : A → A → bool).

Lemma insert_sorted_perm (x : A) (l : list A) :
  insert_sorted lt x l ≡ₚ x :: l.
Proof.
  induction l as [|y l IH]; simpl; [done|].
  destruct (lt y x); [|done].
  rewrite IH. apply Permutation_swap.
Qed.

Lemma stable_sort_perm (l : list A) : stable_sort lt l ≡ₚ l.
Proof.
  induction l as [|x l IH]; simpl; [done|].
  by rewrite insert_sorted_perm, IH.
Qed.

Lemma stable_sort_length (l : list A) :
  length (stable_sort lt l) = length l.
Proof. apply Permutation_length, stable_sort_perm. Qed.

(** Sortedness, for a preorder [le] that [lt] decides. *)
Context (le : A → A → Prop).
Hypothesis lt_le : ∀ x y, lt x y = true → le x y.
Hypothesis not_lt_le : ∀ x y, lt x y = false → le y x.

Lemma insert_sorted_sorted (x : A) (l : list A) :
  Sorted le l → Sorted le (insert_sorted lt x l).
Proof.
  induction l as [|y l IH]; simpl; intros Hl.
  - by repeat constructor.
  - destruct (lt y x) eqn:E.
    + apply Sorted_inv in Hl as [Hl Hhd]. constructor; [by apply IH|].
      destruct l as [|z l]; simpl.
      * constructor. by apply lt_le.
      * destruct (lt z x); constructor;
          [by apply HdRel_inv in Hhd | by apply lt_le].
    + constructor; [done|]. constructor. by apply not_lt_le.
Qed.

Lemma stable_sort_sorted (l : list A) : Sorted le (stable_sort lt l).
Proof.
  induction l as [|x l IH]; simpl; [constructor|].
  by apply insert_sorted_sorted.
Qed.

(** Stability: a class [p] of elements that no element of the class is
    [lt]-above keeps its order. *)
Lemma insert_sorted_stable (p : A → bool) (x : A) (l : list A) :
  (∀ y, lt y x = true → p x = true → p y = false) →
  List.filter p (insert_sorted lt x l) = List.filter p (x :: l).
Proof.
  intros Hp. induction l as [|y l IH]; [done|].
  cbn [insert_sorted]. destruct (lt y x) eqn:E; [|done].
  cbn [List.filter] in *. rewrite IH.
  destruct (p x) eqn:Ex; [|done].
  by rewrite (Hp y E).
Qed.

Lemma stable_sort_stable (p : A → bool) (l : list A) :
  (∀ x y, lt y x = true → p x = true → p y = false) →
  List.filter p (stable_sort lt l) = List.filter p l.
Proof.
  intros Hp. induction l as [|x l IH]; [done|].
  cbn [stable_sort]. rewrite insert_sorted_stable by apply Hp.
  cbn [List.filter]. by rewrite IH.
Qed.
End StableSortFacts.

Lemma Sorted_take {A : Type} (R : relation A) `{!Transitive R}
    (n : nat) (l : list A) :
  Sorted R l → Sorted R (take n l).
Proof.
  intros Hl. apply StronglySorted_Sorted.
  apply Sorted_StronglySorted in Hl; [|done].
  rewrite <- (take_drop n l) in Hl.
  by apply StronglySorted_app_1_l in Hl.
Qed.

#[global] Instance score_le_trans : Transitive score_le.
Proof. intros x y z. unfold score_le. apply Qle_trans. Qed.

Lemma score_lt_le (x y : string * Q) : score_lt x y = true → score_le x y.
Proof. unfold score_lt, score_le. rewrite ltb_lt. apply Qlt_le_weak. Qed.

Lemma not_score_lt_le (x y : string * Q) :
  score_lt x y = false → score_le y x.
Proof. unfold score_lt, score_le. by rewrite ltb_ge. Qed.

Lemma score_lt_other_score (q : Q) (x y : string * Q) :
  score_lt y x = true → Qeq_bool x.2 q = true → Qeq_bool y.2 q = false.
Proof.
  unfold score_lt. rewrite ltb_lt, Qeq_bool_iff. intros Hlt Hx.
  apply not_true_iff_false. rewrite Qeq_bool_iff. intros Hy. lra.
Qed.

(** ** Gap analyzer *)

Lemma dict_set_fresh {V : Type} (d : list (string * V)) (k : string) (v : V) :
  k ∉ d.*1 → dict_set d k v = (d ++ [(k, v)])%list.
Proof.
  induction d as [|[k' v'] d IH]; simpl; intros Hk; [done|].
  apply not_elem_of_cons in Hk as [Hne Hk].
  destruct (String.eqb k' k) eqn:E.
  - apply String.eqb_eq in E. congruence.
  - by rewrite IH.
Qed.

Lemma prefix_inj (prefix a b : string) : prefix ++ a = prefix ++ b → a = b.
Proof.
  induction prefix as [|c prefix IH]; [done|].
  rewrite !app_cons_string. intros H. apply IH. congruence.
Qed.

Lemma prefixed_keys (prefix : string) (d : list (string * pyscore)) :
  (prefixed prefix d).*1 = map (String.append prefix) d.*1.
Proof.
  unfold prefixed. induction d as [|kv d IH]; [done|].
  csimpl in *. by f_equal.
Qed.

Lemma add_scores_append (prefix : string) (items : list (string * pyscore))
    (all_scores : list (string * Q)) :
  score_dict items →
  (∀ k, k ∈ items.*1 → prefix ++ k ∉ all_scores.*1) →
  add_scores prefix items all_scores
  = Ok (all_scores ++ prefixed prefix items)%list.
Proof.
  revert all_scores.
  induction items as [|[c v] items IH]; intros all_scores [Hnd Hnum] Hfresh.
  - simpl. by rewrite app_nil_r.
  - cbn [add_scores]. simpl in Hnd.
    apply NoDup_cons in Hnd as [Hc Hnd].
    apply Forall_cons in Hnum as [Hv Hnum].
    destruct v as [q|]; [|done]. cbn.
    rewrite dict_set_fresh by (apply Hfresh; left).
    rewrite IH.
    + by rewrite <- app_assoc.
    + by split.
    + intros k Hk. rewrite fmap_app, elem_of_app. intros [Hin|Hin].
      * apply (Hfresh k); [by right | done].
      * apply list_elem_of_singleton in Hin. simpl in Hin.
        apply prefix_inj in Hin. subst k. by apply Hc.
Qed.

Lemma prefixes_disjoint (c d : ascii) (s t k : string)
    (items : list (string * pyscore)) :
  c ≠ d → String c s ++ k ∉ (prefixed (String d t) items).*1.
Proof.
  intros Hne. rewrite prefixed_keys, list_elem_of_fmap.
  intros [b [Hb _]]. rewrite !app_cons_string in Hb. congruence.
Qed.

Lemma identify_priority_areas_sorted (a : assessment) :
  valid_scores a →
  identify_priority_areas a
  = Ok (take 5 (stable_sort score_lt (merged_scores_spec a))).
Proof.
  intros (Hcore & Hmgr & Hlead).
  unfold identify_priority_areas, merged_scores_spec.
  rewrite add_scores_append; [|done|set_solver]. cbn.
  rewrite add_scores_append; [|done|].
  2: { intros k _. by apply prefixes_disjoint. }
  cbn. rewrite add_scores_append; [|done|].
  2: { intros k _. rewrite fmap_app, elem_of_app.
       intros [H|H]; revert H; by apply prefixes_disjoint. }
  cbn. by rewrite <- app_assoc.
Qed.

(** C2. For an assessment whose three groups are score dictionaries (a
    missing group counts as empty), [identify_priority_areas] returns the
    first 5 entries of the merge of the prefixed groups sorted ascending by
    score, entries of equal score keeping their merged order: all entries
    when fewer than 5 scores were supplied, and exactly 5 entries, sorted
    non-decreasing, when at least 5 were. *)
Theorem identify_priority_areas_spec (a : assessment) :
  valid_scores a →
  let merged := merged_scores_spec a in
  ∃ sorted,
    sorted ≡ₚ merged
    ∧ Sorted score_le sorted
    ∧ (∀ q, with_score q sorted = with_score q merged)
    ∧ identify_priority_areas a = Ok (take 5 sorted)
    ∧ ((length merged < 5)%nat → take 5 sorted = sorted)
    ∧ ((5 <= length merged)%nat → length (take 5 sorted) = 5%nat)
    ∧ length (take 5 sorted) = Nat.min 5 (length merged)
    ∧ Sorted score_le (take 5 sorted).
Proof.
  intros Hvalid merged.
  exists (stable_sort score_lt merged).
  assert (Hlen : length (stable_sort score_lt merged) = length merged)
    by apply stable_sort_length.
  assert (Hsorted : Sorted score_le (stable_sort score_lt merged))
    by (apply stable_sort_sorted;
        [apply score_lt_le | apply not_score_lt_le]).
  split; [apply stable_sort_perm|].
  split; [done|].
  split.
  { intros q. apply stable_sort_stable. apply score_lt_other_score. }
  split; [by apply identify_priority_areas_sorted|].
  split; [intros H; apply take_ge; lia|].
  split; [intros H; rewrite length_take; lia|].
  split; [rewrite length_take; lia|].
  exact (Sorted_take score_le 5 _ Hsorted).
Qed.

Lemma identify_priority_areas_spec_witness :
  valid_scores finance_staff
  ∧ identify_priority_areas finance_staff
    = Ok [("core_concern_for_order", 1.5%Q);
          ("managerial_business_savvy", 1.7%Q);
          ("core_ethical_oriented", 1.8%Q);
          ("core_achievement_orientation", 1.9%Q);
          ("core_resilience", 2.1%Q)]
  ∧ ∃ sorted,
      sorted ≡ₚ merged_scores_spec finance_staff
      ∧ identify_priority_areas finance_staff = Ok (take 5 sorted)
      ∧ length (take 5 sorted) = 5%nat
      ∧ Sorted score_le (take 5 sorted).
Proof.
  assert (Hvalid : valid_scores finance_staff).
  { repeat split; simpl;
      try (apply (bool_decide_unpack _); by vm_compute);
      repeat constructor. }
  split; [exact Hvalid|]. split; [by vm_compute|].
  destruct (identify_priority_areas_spec finance_staff Hvalid)
    as (sorted & Hperm & _ & _ & Heq & _ & Hfive & _ & Hsorted).
  exists sorted. repeat split; try done.
  apply Hfive. vm_compute. lia.
Defined.

(** ** Response assembly *)

Lemma enumerate_length {A : Type} (start : Z) (xs : list A) :
  length (enumerate start xs) = length xs.
Proof.
  revert start. induction xs as [|x xs IH]; intros start; simpl; [done|].
  by rewrite IH.
Qed.

Lemma enumerate_snd {A : Type} (start : Z) (xs : list A) :
  map snd (enumerate start xs) = xs.
Proof.
  revert start. induction xs as [|x xs IH]; intros start; simpl; [done|].
  by rewrite IH.
Qed.

Lemma build_step_recs (items : list (Z * recommendation))
    (st : list formatted_rec * development_path) :
  (fold_left build_step items st).1
  = (st.1 ++ map (fun item => format_rec item.1 item.2) items)%list.
Proof.
  revert st. induction items as [|item items IH]; intros st; simpl.
  - by rewrite app_nil_r.
  - rewrite IH. simpl. by rewrite <- app_assoc.
Qed.

Lemma build_response_recommendations (today : string) (a : assessment)
    (recs : list recommendation) :
  recommendations (_build_response today a recs)
  = map (fun item => format_rec item.1 item.2) (enumerate 1 recs).
Proof. unfold _build_response. simpl. by rewrite build_step_recs. Qed.

Lemma fold_left_add (xs : list Z) (z : Z) :
  fold_left Z.add xs z = (z + foldr Z.add 0 xs)%Z.
Proof.
  revert z. induction xs as [|x xs IH]; intros z; simpl; [lia|].
  rewrite IH. lia.
Qed.

Lemma sum_foldr (xs : list Z) : sum xs = foldr Z.add 0%Z xs.
Proof. unfold sum. by rewrite fold_left_add. Qed.

Lemma build_response_trainings (today : string) (a : assessment)
    (recs : list recommendation) :
  map recommended_training (recommendations (_build_response today a recs))
  = map rec_training_details recs.
Proof.
  rewrite build_response_recommendations, map_map. simpl.
  rewrite <- (enumerate_snd 1 recs) at 2. by rewrite map_map.
Qed.

Lemma build_response_summary (today : string) (a : assessment)
    (recs : list recommendation) :
  let r := _build_response today a recs in
  length (recommendations r) = length recs
  ∧ total_recommendations (resp_summary r)
    = Z.of_nat (length (recommendations r))
  ∧ total_estimated_cost (resp_summary r)
    = foldr Z.add 0%Z
        (map (fun f => cost (recommended_training f)) (recommendations r))
  ∧ total_estimated_duration (resp_summary r)
    = foldr Z.add 0%Z
        (map (fun f => duration_days (recommended_training f))
           (recommendations r)).
Proof.
  intros r.
  assert (Hlen : length (recommendations r) = length recs).
  { subst r. rewrite build_response_recommendations, length_map.
    apply enumerate_length. }
  assert (Htr : ∀ (g : training → Z),
             map (fun f => g (recommended_training f)) (recommendations r)
             = map (fun rec => g (rec_training_details rec)) recs).
  { intros g. subst r.
    rewrite <- (map_map recommended_training g),
      build_response_trainings.
    by rewrite map_map. }
  split; [done|]. split; [by rewrite Hlen|].
  rewrite !Htr, <- !sum_foldr. done.
Qed.

(** The two outcomes of [recommend_training]. *)
Lemma recommend_training_cases (self : system)
    (list_of_set : list string → list string) (today : string)
    (a : assessment) :
  (∃ recs,
     (length recs <= 3)%nat
     ∧ recommend_training_body self list_of_set today a
       = Ok (_build_response today a recs)
     ∧ recommend_training self list_of_set today a
       = _build_response today a recs)
  ∨ (∃ e,
       recommend_training_body self list_of_set today a = Raise e
       ∧ recommend_training self list_of_set today a = error_response e a).
Proof.
  unfold recommend_training, recommend_training_body.
  destruct (identify_priority_areas a) as [areas|e]; cbn.
  - left. eexists. split; [|split; reflexivity].
    rewrite length_take. lia.
  - right. by exists e.
Qed.

(** C1. For every assessment, the response of [recommend_training] has at
    most 3 recommendations, [total_recommendations] is their number,
    [total_estimated_cost] is the sum of the costs of their training
    records and [total_estimated_duration] the sum of their
    [duration_days]. *)
Theorem recommend_training_summary (self : system)
    (list_of_set : list string → list string) (today : string)
    (a : assessment) :
  let r := recommend_training self list_of_set today a in
  (length (recommendations r) <= 3)%nat
  ∧ total_recommendations (resp_summary r)
    = Z.of_nat (length (recommendations r))
  ∧ total_estimated_cost (resp_summary r)
    = foldr Z.add 0%Z
        (map (fun f => cost (recommended_training f)) (recommendations r))
  ∧ total_estimated_duration (resp_summary r)
    = foldr Z.add 0%Z
        (map (fun f => duration_days (recommended_training f))
           (recommendations r)).
Proof.
  intros r. subst r.
  destruct (recommend_training_cases self list_of_set today a)
    as [(recs & Hlen & _ & ->) | (e & _ & ->)].
  - destruct (build_response_summary today a recs) as (H1 & H2 & H3 & H4).
    split; [by rewrite H1|]. done.
  - simpl. split; [lia | done].
Qed.

(** ** Faults of the engine on dynamically typed input *)

Lemma for_each_raises {A S : Type} (body : S → A → result S)
    (xs : list A) (s : S) (x : A) :
  x ∈ xs → (∀ s', ∃ e, body s' x = Raise e) →
  ∃ e, Dyn.for_each body xs s = Raise e.
Proof.
  intros Hx Hbody. revert s.
  induction xs as [|y xs IH]; intros s; [by apply elem_of_nil in Hx|].
  simpl. apply elem_of_cons in Hx as [<- | Hx].
  - destruct (Hbody s) as [e ->]. by exists e.
  - destruct (body s y) as [s'|e]; cbn; [by apply IH | by exists e].
Qed.

(** A group of scores one of whose values [float] rejects makes its loop
    raise. *)
Lemma add_scores_raise (float_of_str : string → option binary64)
    (repr : string → string) (prefix : string)
    (scores : list (string * Dyn.value))
    (all_scores : list (string * binary64)) (k : string) (v : Dyn.value)
    (e : exn) :
  (k, v) ∈ scores → Dyn.float float_of_str repr v = Raise e →
  ∃ e',
    Dyn.for_each (Dyn.add_score float_of_str repr prefix) scores all_scores
    = Raise e'.
Proof.
  intros Hin Hv. apply (for_each_raises _ _ _ (k, v) Hin).
  intros s'. exists e. unfold Dyn.add_score. simpl. by rewrite Hv.
Qed.

Lemma identify_priority_areas_raises
    (float_of_str : string → option binary64) (repr : string → string)
    (d : list (string * Dyn.value)) (group : string)
    (scores : list (string * Dyn.value)) (k : string) (v : Dyn.value)
    (e : exn) :
  group ∈ ["core_competency_scores"; "managerial_competency_scores";
           "leadership_competency_scores"] →
  Dyn.dict_lookup d group = Some (Dyn.VDict scores) →
  (k, v) ∈ scores →
  Dyn.float float_of_str repr v = Raise e →
  ∃ e', Dyn.identify_priority_areas float_of_str repr (Dyn.VDict d)
        = Raise e'.
Proof.
  intros Hgroup Hlookup Hin Hv.
  unfold Dyn.identify_priority_areas. cbn [Dyn.get mbind result_bind].
  assert (Hloop : ∀ prefix acc, ∃ e',
            Dyn.for_each (Dyn.add_score float_of_str repr prefix) scores acc
            = Raise e').
  { intros prefix acc. by eapply add_scores_raise. }
  repeat match goal with
  | |- ∃ e', Raise ?e = Raise e' => by exists e
  | |- context [Dyn.items ?g] =>
      destruct (Dyn.items g) as [?its|?e] eqn:?; cbn [mbind result_bind]
  | |- context [Dyn.for_each ?b ?xs ?acc] =>
      destruct (Dyn.for_each b xs acc) as [?scores|?e] eqn:?;
      cbn [mbind result_bind]
  end.
  exfalso.
  apply elem_of_cons in Hgroup as [-> | Hgroup];
    [|apply elem_of_cons in Hgroup as [-> | Hgroup];
       [|apply elem_of_cons in Hgroup as [-> | Hgroup];
          [|by apply elem_of_nil in Hgroup]]];
    rewrite Hlookup in *; simpl in *; simplify_eq;
    match goal with
    | H : Dyn.for_each (Dyn.add_score _ _ ?p) _ ?acc = Ok _ |- _ =>
        destruct (Hloop p acc) as [e' He']; congruence
    end.
Qed.

(** On a dictionary the [except] clause returns its response. *)
Lemma error_response_dict (e : exn) (d : list (string * Dyn.value)) :
  Dyn.error_response e (Dyn.VDict d)
  = Ok {| Dyn.error := Some (str_of_exn e);
          Dyn.resp_employee_id :=
            match Dyn.dict_lookup d "employee_id" with
            | Some v => v
            | None => Dyn.VStr "Unknown"
            end;
          Dyn.assessment_date := None;
          Dyn.recommendations := [];
          Dyn.resp_development_path := None;
          Dyn.resp_summary :=
            {| total_recommendations := 0;
               total_estimated_cost := 0;
               total_estimated_duration := 0 |} |}.
Proof. reflexivity. Qed.

(** On a dictionary the [try] block of [_build_response] does not raise, so
    its handler is not entered. *)
Lemma build_response_dict (today : string) (round2 : binary64 → binary64)
    (d : list (string * Dyn.value)) (recs : list Dyn.recommendation) :
  ∃ r, Dyn._build_response today round2 (Dyn.VDict d) recs = Ok r
       ∧ Dyn.error r = None.
Proof.
  unfold Dyn._build_response, Dyn.try_except. cbn [Dyn.get mbind result_bind].
  eexists. split; reflexivity.
Qed.



(** Three faults of the [try] block and the responses they give: a score
    that is [None], a position that is [None], a score group that is a
    list. *)
Lemma recommend_training_fault_examples
    (list_of_set : list string → list string) (today : string)
    (float_of_str : string → option binary64) (repr : string → string)
    (round2 : binary64 → binary64) :
  let run :=
    Dyn.recommend_training list_of_set today float_of_str repr round2 trs in
  let failed (msg employee : string) :=
    Ok {| Dyn.error := Some msg;
          Dyn.resp_employee_id := Dyn.VStr employee;
          Dyn.assessment_date := None;
          Dyn.recommendations := [];
          Dyn.resp_development_path := None;
          Dyn.resp_summary :=
            {| total_recommendations := 0;
               total_estimated_cost := 0;
               total_estimated_duration := 0 |} |} in
  run Dyn.score_is_none
  = failed
      "float() argument must be a string or a real number, not 'NoneType'"
      "EMP001"
  ∧ run Dyn.position_is_none
    = failed "'NoneType' object has no attribute 'lower'" "EMP002"
  ∧ run Dyn.scores_are_a_list
    = failed "'list' object has no attribute 'items'" "EMP003".
Proof. repeat split; by vm_compute. Qed.

(** ** Scenario A *)

Lemma enumeration_of_two (list_of_set : list string → list string)
    (x y : string) (xs : list string) :
  set_enumeration list_of_set →
  x ≠ y → (∀ t, t ∈ xs ↔ t = x ∨ t = y) →
  list_of_set xs = [x; y] ∨ list_of_set xs = [y; x].
Proof.
  intros Hset Hne Hxs. destruct (Hset xs) as [Hnd Hin].
  apply Permutation_length_2_inv. symmetry.
  apply NoDup_Permutation; [done| |].
  - apply NoDup_cons. split; [|apply NoDup_singleton].
    by intros ?%list_elem_of_singleton.
  - intros t. rewrite Hin, Hxs, elem_of_cons, list_elem_of_singleton. done.
Qed.

Lemma scenario_a_unfold (list_of_set : list string → list string)
    (today : string) :
  recommend_training trs list_of_set today scenario_a
  = _build_response today scenario_a
      (take 3
         (stable_sort rec_key_lt
            (fold_left
               (recommend_school trs scenario_a "core_information_seeking"
                  1.2%Q)
               (list_of_set
                  ["Teknologi Informasi"; "Strategi SDM";
                   "Teknologi Informasi"])
               []))).
Proof. reflexivity. Qed.

(** C9. For the assessment of scenario A, [identify_priority_areas] returns
    the single pair ("core_information_seeking", 1.2), and the first
    recommendation of the response of [recommend_training] has [priority] 1
    and [competency_gap] "core_information_seeking", in whichever order the
    candidate set is enumerated. *)
Theorem scenario_a_top_recommendation
    (list_of_set : list string → list string) (today : string) :
  set_enumeration list_of_set →
  identify_priority_areas scenario_a
  = Ok [("core_information_seeking", 1.2%Q)]
  ∧ ∃ top rest,
      recommendations (recommend_training trs list_of_set today scenario_a)
      = top :: rest
      ∧ priority top = 1%Z
      ∧ competency_gap top = "core_information_seeking".
Proof.
  intros Hset. split; [by vm_compute|].
  rewrite scenario_a_unfold.
  destruct (enumeration_of_two list_of_set
              "Teknologi Informasi" "Strategi SDM"
              ["Teknologi Informasi"; "Strategi SDM"; "Teknologi Informasi"]
              Hset)
    as [-> | ->].
  - discriminate.
  - intros t. rewrite !elem_of_cons, elem_of_nil. tauto.
  - eexists _, _. split; [by vm_compute | by vm_compute].
  - eexists _, _. split; [by vm_compute | by vm_compute].
Qed.

Lemma scenario_a_top_recommendation_witness :
  identify_priority_areas scenario_a
  = Ok [("core_information_seeking", 1.2%Q)]
  ∧ ∃ top rest,
      recommendations
        (recommend_training trs first_seen "2024-01-01" scenario_a)
      = top :: rest
      ∧ priority top = 1%Z
      ∧ competency_gap top = "core_information_seeking".
Proof.
  apply (scenario_a_top_recommendation first_seen "2024-01-01").
  exact first_seen_enumeration.
Defined.

(** ** Determinism *)

Lemma last_seen_enumeration : set_enumeration last_seen.
Proof.
  intros xs. destruct (first_seen_enumeration xs) as [Hnd Hin].
  unfold last_seen. split.
  - by rewrite reverse_Permutation.
  - intros x. by rewrite elem_of_reverse.
Qed.

(** The response carries the date of the call. *)
Lemma recommend_training_date (self : system)
    (list_of_set : list string → list string) (today : string)
    (a : assessment) :
  assessment_date (recommend_training self list_of_set today a)
  = match error (recommend_training self list_of_set today a) with
    | Some _ => None
    | None => Some today
    end.
Proof.
  unfold recommend_training, recommend_training_body.
  by destruct (identify_priority_areas a).
Qed.

(** Two calls with the same assessment and catalog, a day apart. *)
Lemma recommend_training_differs_between_days :
  recommend_training trs first_seen "2024-01-01" scenario_a
  ≠ recommend_training trs first_seen "2024-01-02" scenario_a.
Proof.
  intros H. apply (f_equal assessment_date) in H.
  rewrite !recommend_training_date in H.
  by vm_compute in H.
Qed.

(** Two interpreter runs that enumerate the candidate set differently rank
    recommendations of equal priority level and relevance differently. *)
Lemma recommend_training_follows_set_order :
  map (fun f => training_id (recommended_training f))
    (recommendations
       (recommend_training trs first_seen "2024-01-01" scenario_a))
  = [Some "IT-2024-501"; Some "GM-2024-001"]
  ∧ map (fun f => training_id (recommended_training f))
      (recommendations
         (recommend_training trs last_seen "2024-01-01" scenario_a))
    = [Some "GM-2024-001"; Some "IT-2024-501"].
Proof. split; by vm_compute. Qed.

(** C7, amended. Within one interpreter run, two calls of
    [recommend_training] with the same assessment and the same catalog
    return responses that agree on every field other than
    [assessment_date], which is the date of each call (absent from the
    error response); calls made on the same date return identical
    responses. *)
Theorem recommend_training_deterministic (self : system)
    (list_of_set : list string → list string) (today1 today2 : string)
    (a : assessment) :
  let r1 := recommend_training self list_of_set today1 a in
  let r2 := recommend_training self list_of_set today2 a in
  error r1 = error r2
  ∧ resp_employee_id r1 = resp_employee_id r2
  ∧ recommendations r1 = recommendations r2
  ∧ resp_development_path r1 = resp_development_path r2
  ∧ resp_summary r1 = resp_summary r2
  ∧ ((assessment_date r1 = Some today1 ∧ assessment_date r2 = Some today2)
     ∨ (assessment_date r1 = None ∧ assessment_date r2 = None))
  ∧ (today1 = today2 → r1 = r2).
Proof.
  intros r1 r2. subst r1 r2.
  unfold recommend_training, recommend_training_body.
  destruct (identify_priority_areas a) as [areas|e]; cbn.
  - repeat split; auto. by intros ->.
  - repeat split; auto.
Qed.

(** * Further properties of the engine *)

(** ** What the assembler retains *)

#[global] Instance rec_key_le_trans : Transitive rec_key_le.
Proof.
  intros x y z [H1|[H1 H1']] [H2|[H2 H2']]; unfold rec_key_le.
  - left. lia.
  - left. lia.
  - left. lia.
  - right. split; [lia|]. by apply Qle_trans with (rec_relevance_score y).
Qed.

Lemma rec_key_lt_le (x y : recommendation) :
  rec_key_lt x y = true → rec_key_le x y.
Proof.
  unfold rec_key_lt, rec_key_le.
  destruct (Z.eqb_spec (rec_priority_level x) (rec_priority_level y)).
  - rewrite ltb_lt. intros H. right. split; [done | lra].
  - rewrite Z.ltb_lt. by left.
Qed.

Lemma not_rec_key_lt_le (x y : recommendation) :
  rec_key_lt x y = false → rec_key_le y x.
Proof.
  unfold rec_key_lt, rec_key_le.
  destruct (Z.eqb_spec (rec_priority_level x) (rec_priority_level y)).
  - rewrite ltb_ge. intros H. right. split; [done | lra].
  - rewrite Z.ltb_ge. left. lia.
Qed.

Section Assembler.
Variable self : system.
Variable list_of_set : list string → list string.
Hypothesis list_of_set_enumerates : set_enumeration list_of_set.
Variable a : assessment.

Lemma get_training_details_Some (training_school : string) :
  ∃ r, get_training_details self training_school = Some r.
Proof.
  unfold get_training_details.
  destruct (map _ _); [|by eexists].
  destruct (List.find _ _); by eexists.
Qed.

(** Every school appends exactly one recommendation. *)
Lemma recommend_school_appends (competency : string) (score : Q)
    (recs : list recommendation) (school : string) :
  ∃ td,
    get_training_details self school = Some td
    ∧ recommend_school self a competency score recs school
      = (recs
         ++ [{| rec_competency_gap := competency;
                rec_current_score := score;
                rec_training_details := td;
                rec_relevance_score :=
                  calculate_relevance_score competency score td a;
                rec_priority_level := get_priority_level score;
                rec_expected_improvement := Num.py_min 2 (5 - score)%Q;
                rec_timeline := _get_timeline (get_priority_level score) |}])
        %list.
Proof.
  destruct (get_training_details_Some school) as [td Htd].
  exists td. split; [done|]. unfold recommend_school. by rewrite Htd.
Qed.

Lemma recommend_school_fold (competency : string) (score : Q)
    (schools : list string) (acc : list recommendation)
    (P : recommendation → Prop) :
  Forall P acc →
  (∀ school recs r,
     school ∈ schools →
     recommend_school self a competency score recs school
     = (recs ++ [r])%list →
     P r) →
  Forall P (fold_left (recommend_school self a competency score) schools acc).
Proof.
  revert acc. induction schools as [|school schools IH]; intros acc Hacc HP.
  - done.
  - simpl. apply IH; [|intros s recs r Hs; apply HP; by right].
    destruct (recommend_school_appends competency score acc school)
      as (td & Htd & Heq).
    rewrite Heq. apply Forall_app. split; [done|]. constructor; [|done].
    by apply (HP school acc); [left|].
Qed.

Lemma recommend_area_built (areas : list (string * Q))
    (acc : list recommendation) (known : list (string * Q)) :
  Forall (fun r => ∃ area, area ∈ known ∧ built_for self a area r) acc →
  (∀ area, area ∈ areas → area ∈ known) →
  Forall (fun r => ∃ area, area ∈ known ∧ built_for self a area r)
    (fold_left (recommend_area self list_of_set a) areas acc).
Proof.
  revert acc. induction areas as [|area areas IH]; intros acc Hacc Hknown.
  - done.
  - simpl. apply IH; [|intros x Hx; apply Hknown; by right].
    unfold recommend_area.
    destruct (competency_training_mapping self !! area.1)
      as [schools|] eqn:Emap; simpl; [|done].
    destruct (truthy schools); simpl; [|done].
    apply recommend_school_fold; [done|].
    intros school recs r Hschool Hr.
    destruct (recommend_school_appends area.1 area.2 recs school)
      as (td & Htd & Heq).
    rewrite Heq in Hr. apply app_inj_tail in Hr as [_ <-].
    exists area. split; [apply Hknown; by left|].
    repeat split; simpl; try done.
    exists schools, school. repeat split; [done| |done].
    by apply (filter_by_context_members self list_of_set
                list_of_set_enumerates) in Hschool as [Hschool _].
Qed.

(** The normal path: the response is built from at most 3 recommendations,
    each built for one of the priority areas, in the order of the sort
    key. *)
Lemma recommend_training_retained (today : string)
    (areas : list (string * Q)) :
  identify_priority_areas a = Ok areas →
  ∃ top,
    recommend_training self list_of_set today a
    = _build_response today a top
    ∧ (length top <= 3)%nat
    ∧ Forall (fun r => ∃ area, area ∈ areas ∧ built_for self a area r) top
    ∧ Sorted rec_key_le top.
Proof.
  intros Hareas.
  unfold recommend_training, recommend_training_body. rewrite Hareas. cbn.
  eexists. split; [reflexivity|].
  split; [rewrite length_take; lia|]. split.
  - apply Forall_take.
    rewrite stable_sort_perm.
    by apply recommend_area_built.
  - apply (Sorted_take rec_key_le).
    apply stable_sort_sorted; [apply rec_key_lt_le | apply not_rec_key_lt_le].
Qed.
End Assembler.

Lemma enumerate_lookup {A : Type} (start : Z) (xs : list A) (i : nat) :
  enumerate start xs !! i
  = (fun x => ((start + Z.of_nat i)%Z, x)) <$> xs !! i.
Proof.
  revert start i. induction xs as [|x xs IH]; intros start i; [done|].
  destruct i as [|i]; simpl.
  - by rewrite Z.add_0_r.
  - rewrite IH. destruct (xs !! i); simpl; [|done].
    do 2 f_equal. lia.
Qed.

Lemma elem_of_formatted (start : Z) (top : list recommendation)
    (f : formatted_rec) :
  f ∈ map (fun item => format_rec item.1 item.2) (enumerate start top) →
  ∃ i rec, rec ∈ top ∧ f = format_rec i rec.
Proof.
  revert start. induction top as [|rec top IH]; intros start; simpl.
  - by intros ?%elem_of_nil.
  - intros [->|Hin]%elem_of_cons.
    + exists start, rec. split; [by left | done].
    + destruct (IH _ Hin) as (i & rec' & Hrec & ->).
      exists i, rec'. split; [by right | done].
Qed.

(** Every recommendation of a normal response is the formatting of a
    recommendation built for one of the priority areas. *)
Lemma response_recommendation_built (self : system)
    (list_of_set : list string → list string) (today : string)
    (a : assessment) (areas : list (string * Q)) (f : formatted_rec) :
  set_enumeration list_of_set →
  identify_priority_areas a = Ok areas →
  f ∈ recommendations (recommend_training self list_of_set today a) →
  ∃ area rec i,
    area ∈ areas ∧ built_for self a area rec ∧ f = format_rec i rec.
Proof.
  intros Hset Hareas Hf.
  destruct (recommend_training_retained self list_of_set Hset a today areas
              Hareas) as (top & Heq & _ & Hbuilt & _).
  rewrite Heq, build_response_recommendations in Hf.
  apply elem_of_formatted in Hf as (i & rec & Hrec & ->).
  rewrite Forall_forall in Hbuilt.
  destruct (Hbuilt rec Hrec) as (area & Harea & Hb).
  by exists area, rec, i.
Qed.

(** X1. Each recommendation of the response addresses one of the priority
    areas returned by [identify_priority_areas], with that area's score as
    [current_score]; the area is a key of the competency-to-training map,
    and the recommended training is what the resolver returns for one of
    the schools mapped to it. *)
Theorem recommendations_address_mapped_priority_areas (self : system)
    (list_of_set : list string → list string) (today : string)
    (a : assessment) (areas : list (string * Q)) (f : formatted_rec) :
  set_enumeration list_of_set →
  identify_priority_areas a = Ok areas →
  f ∈ recommendations (recommend_training self list_of_set today a) →
  (competency_gap f, current_score f) ∈ areas
  ∧ ∃ schools school,
      competency_training_mapping self !! competency_gap f = Some schools
      ∧ school ∈ schools
      ∧ get_training_details self school = Some (recommended_training f).
Proof.
  intros Hset Hareas Hf.
  destruct (response_recommendation_built self list_of_set today a areas f
              Hset Hareas Hf)
    as ([c s] & rec & i & Harea & Hb & ->).
  destruct Hb as (Hc & Hs & _ & _ & _ & _ & schools & school & H1 & H2 & H3).
  simpl in *. rewrite Hc, Hs. split; [done|]. by exists schools, school.
Qed.

Lemma recommendations_address_mapped_priority_areas_witness :
  ∃ f rest,
    recommendations
      (recommend_training trs first_seen "2024-01-01" finance_staff)
    = f :: rest
    ∧ (competency_gap f, current_score f)
      = ("core_achievement_orientation", 1.9%Q)
    ∧ ∃ schools school,
        competency_training_mapping trs !! competency_gap f = Some schools
        ∧ school ∈ schools
        ∧ get_training_details trs school = Some (recommended_training f).
Proof.
  eexists _, _. split; [by vm_compute|]. split; [by vm_compute|].
  eapply (recommendations_address_mapped_priority_areas trs first_seen
            "2024-01-01" finance_staff).
  - exact first_seen_enumeration.
  - by vm_compute.
  - vm_compute. left.
Defined.

(** X2. When none of the priority areas is a key of the
    competency-to-training map (or its list of schools is empty), the
    response is a normal one with no recommendation and zero totals: an
    unmapped competency is skipped without a fault. *)
Theorem unmapped_areas_give_no_recommendation (self : system)
    (list_of_set : list string → list string) (today : string)
    (a : assessment) (areas : list (string * Q)) :
  set_enumeration list_of_set →
  identify_priority_areas a = Ok areas →
  (∀ area, area ∈ areas →
     default [] (competency_training_mapping self !! area.1) = []) →
  let r := recommend_training self list_of_set today a in
  error r = None
  ∧ recommendations r = []
  ∧ resp_summary r
    = {| total_recommendations := 0; total_estimated_cost := 0;
         total_estimated_duration := 0 |}.
Proof.
  intros Hset Hareas Hunmapped r. subst r.
  destruct (recommend_training_retained self list_of_set Hset a today areas
              Hareas) as (top & Heq & _ & Hbuilt & _).
  assert (top = []) as ->.
  { destruct top as [|rec top]; [done|]. exfalso.
    apply Forall_cons in Hbuilt as [(area & Harea & Hb) _].
    destruct Hb as (_ & _ & _ & _ & _ & _ & schools & school & H1 & H2 & _).
    specialize (Hunmapped area Harea). rewrite H1 in Hunmapped.
    simpl in Hunmapped. subst schools. by apply elem_of_nil in H2. }
  by rewrite Heq.
Qed.

Lemma unmapped_areas_give_no_recommendation_witness :
  let a :=
    {| employee_id := None; current_position := None; division := None;
       experience_level := None;
       core_competency_scores := Some [("teamwork", PyNum 1.0)];
       managerial_competency_scores := None;
       leadership_competency_scores := None |} in
  let r := recommend_training trs first_seen "2024-01-01" a in
  identify_priority_areas a = Ok [("core_teamwork", 1.0%Q)]
  ∧ error r = None
  ∧ recommendations r = []
  ∧ resp_summary r
    = {| total_recommendations := 0; total_estimated_cost := 0;
         total_estimated_duration := 0 |}.
Proof.
  intros a r. split; [by vm_compute|].
  apply (unmapped_areas_give_no_recommendation trs first_seen "2024-01-01" a
           [("core_teamwork", 1.0%Q)]).
  - exact first_seen_enumeration.
  - by vm_compute.
  - intros area ->%list_elem_of_singleton. by vm_compute.
Defined.

(** X3. The [priority] fields of the response number the recommendations
    1, 2, ... in list order. *)
Theorem response_ranks_are_consecutive (self : system)
    (list_of_set : list string → list string) (today : string)
    (a : assessment) :
  let r := recommend_training self list_of_set today a in
  map priority (recommendations r)
  = seqZ 1 (Z.of_nat (length (recommendations r))).
Proof.
  intros r. subst r.
  destruct (recommend_training_cases self list_of_set today a)
    as [(recs & _ & _ & ->) | (e & _ & ->)]; [|done].
  rewrite build_response_recommendations, length_map, enumerate_length.
  generalize 1%Z. induction recs as [|rec recs IH]; intros start; [done|].
  rewrite length_cons, Nat2Z.inj_succ, seqZ_cons by lia.
  simpl. rewrite IH. do 2 f_equal. lia.
Qed.

(** ** Development path *)

Lemma build_step_path (items : list (Z * recommendation))
    (st : list formatted_rec * development_path) :
  let level (l : Z) (item : Z * recommendation) :=
    (rec_priority_level item.2 =? l)%Z in
  let gaps (p : Z * recommendation → bool) :=
    map (fun item : Z * recommendation => rec_competency_gap item.2)
      (List.filter p items) in
  (fold_left build_step items st).2
  = {| critical := (critical st.2 ++ gaps (level 1%Z))%list;
       high_priority := (high_priority st.2 ++ gaps (level 2%Z))%list;
       medium_priority :=
         (medium_priority st.2
          ++ gaps (fun item =>
                     negb (level 1%Z item) && negb (level 2%Z item)))
         %list |}.
Proof.
  revert st. induction items as [|item items IH]; intros [recs path]; simpl.
  - rewrite !app_nil_r. by destruct path.
  - rewrite IH. unfold build_step. simpl.
    destruct (rec_priority_level item.2 =? 1)%Z eqn:E1; simpl.
    + apply Z.eqb_eq in E1. rewrite E1. simpl.
      by rewrite <- !app_assoc.
    + destruct (rec_priority_level item.2 =? 2)%Z eqn:E2; simpl;
        by rewrite <- !app_assoc.
Qed.

Lemma filter_ext_Forall {A : Type} (p q : A → bool) (l : list A) :
  Forall (fun x => p x = q x) l → List.filter p l = List.filter q l.
Proof.
  induction 1 as [|x l Hx _ IH]; [done|]. simpl. by rewrite Hx, IH.
Qed.

Lemma gaps_of_formatted (p : Q → bool) (start : Z)
    (top : list recommendation) :
  map competency_gap
    (List.filter (fun f => p (current_score f))
       (map (fun item => format_rec item.1 item.2) (enumerate start top)))
  = map (fun item : Z * recommendation => rec_competency_gap item.2)
      (List.filter (fun item => p (rec_current_score item.2))
         (enumerate start top)).
Proof.
  revert start. induction top as [|rec top IH]; intros start; [done|].
  simpl. destruct (p (rec_current_score rec)); simpl; by rewrite IH.
Qed.

Lemma level_of_score (score : Q) :
  (get_priority_level score =? 1)%Z = Num.ltb score 2
  ∧ (get_priority_level score =? 2)%Z
    = negb (Num.ltb score 2) && Num.ltb score 3
  ∧ negb (get_priority_level score =? 1)%Z
    && negb (get_priority_level score =? 2)%Z
    = negb (Num.ltb score 3).
Proof.
  unfold get_priority_level.
  destruct (Num.ltb score 2) eqn:E2; [apply ltb_lt in E2|apply ltb_ge in E2];
    destruct (Num.ltb score 3) eqn:E3;
    [apply ltb_lt in E3|apply ltb_ge in E3| |]; try done.
  - exfalso. lra.
  - by destruct (Num.ltb score 3.5).
Qed.

(** X4. In a normal response the three buckets of the development path
    list, in response order, the competency gaps of the recommendations
    whose current score is below 2.0 ([critical]), from 2.0 to below 3.0
    ([high_priority]) and 3.0 or more ([medium_priority]): every
    recommendation is in exactly one bucket. *)
Theorem development_path_follows_scores (self : system)
    (list_of_set : list string → list string) (today : string)
    (a : assessment) (areas : list (string * Q)) :
  set_enumeration list_of_set →
  identify_priority_areas a = Ok areas →
  let r := recommend_training self list_of_set today a in
  let gaps (p : Q → bool) :=
    map competency_gap
      (List.filter (fun f => p (current_score f)) (recommendations r)) in
  resp_development_path r
  = Some
      {| critical := gaps (fun s => Num.ltb s 2);
         high_priority := gaps (fun s => negb (Num.ltb s 2) && Num.ltb s 3);
         medium_priority := gaps (fun s => negb (Num.ltb s 3)) |}.
Proof.
  intros Hset Hareas r gaps. subst r gaps.
  destruct (recommend_training_retained self list_of_set Hset a today areas
              Hareas) as (top & Heq & _ & Hbuilt & _).
  rewrite Heq, build_response_recommendations.
  pose proof (gaps_of_formatted (fun s => Num.ltb s 2) 1 top) as H1.
  pose proof (gaps_of_formatted
                (fun s => negb (Num.ltb s 2) && Num.ltb s 3) 1 top) as H2.
  pose proof (gaps_of_formatted (fun s => negb (Num.ltb s 3)) 1 top) as H3.
  cbv beta in H1, H2, H3. rewrite H1, H2, H3. clear H1 H2 H3.
  unfold _build_response. simpl. rewrite build_step_path. simpl.
  assert (Hlevel : Forall
            (fun item : Z * recommendation =>
               rec_priority_level item.2
               = get_priority_level (rec_current_score item.2))
            (enumerate 1 top)).
  { apply Forall_forall. intros [i rec] Hin.
    assert (Hrec : rec ∈ top).
    { rewrite <- (enumerate_snd 1 top).
      apply list_elem_of_In, in_map_iff. exists (i, rec).
      split; [done | by apply list_elem_of_In]. }
    rewrite Forall_forall in Hbuilt.
    destruct (Hbuilt rec Hrec) as (area & _ & _ & Hs & Hl & _).
    simpl. by rewrite Hl, Hs. }
  do 2 f_equal.
  - f_equal. apply filter_ext_Forall.
    eapply Forall_impl; [exact Hlevel|]. intros item ->.
    apply level_of_score.
  - f_equal. apply filter_ext_Forall.
    eapply Forall_impl; [exact Hlevel|]. intros item ->.
    apply level_of_score.
  - f_equal. apply filter_ext_Forall.
    eapply Forall_impl; [exact Hlevel|]. intros item ->.
    apply level_of_score.
Qed.

Lemma development_path_follows_scores_witness :
  let r := recommend_training trs first_seen "2024-01-01" finance_staff in
  resp_development_path r
  = Some {| critical :=
              ["core_achievement_orientation"; "core_concern_for_order";
               "managerial_business_savvy"];
            high_priority := []; medium_priority := [] |}
  ∧ resp_development_path r
    = Some
        {| critical :=
             map competency_gap
               (List.filter (fun f => Num.ltb (current_score f) 2)
                  (recommendations r));
           high_priority :=
             map competency_gap
               (List.filter
                  (fun f =>
                     negb (Num.ltb (current_score f) 2)
                     && Num.ltb (current_score f) 3)
                  (recommendations r));
           medium_priority :=
             map competency_gap
               (List.filter (fun f => negb (Num.ltb (current_score f) 3))
                  (recommendations r)) |}.
Proof.
  intros r. split; [by vm_compute|].
  eapply (development_path_follows_scores trs first_seen "2024-01-01"
            finance_staff).
  - exact first_seen_enumeration.
  - by vm_compute.
Defined.

(** ** Rounding of the reported relevance *)

Lemma round2_mono (x y : Q) : (x <= y)%Q → (Num.round2 x <= Num.round2 y)%Q.
Proof.
  intros Hxy. unfold Num.round2. cbv zeta.
  pose proof (Qfloor_resp_le (x * 100) (y * 100) ltac:(lra)) as Hf.
  set (fx := Qfloor (x * 100)) in *. set (fy := Qfloor (y * 100)) in *.
  unfold Qle. cbn [Qnum Qden]. apply Z.mul_le_mono_nonneg_r; [lia|].
  destruct (decide (fx = fy)) as [Heq|Hne].
  - rewrite <- Heq in *. clear Heq Hf.
    case_ltb; destruct (Z.even fx); try lia; exfalso; lra.
  - case_ltb; destruct (Z.even fx); destruct (Z.even fy); lia.
Qed.

Lemma relevance_in_range (x : Q) :
  (0.1 <= x)%Q → (x <= 10)%Q →
  (0.1 <= Num.round2 x)%Q ∧ (Num.round2 x <= 10)%Q.
Proof.
  intros Hlo Hhi. split.
  - apply Qle_trans with (Num.round2 0.1); [by vm_compute|].
    by apply round2_mono.
  - apply Qle_trans with (Num.round2 10); [by apply round2_mono|].
    by vm_compute.
Qed.

(** ** The fields of a recommendation *)

Lemma timeline_of_score (score : Q) :
  ((score < 2)%Q
   → _get_timeline (get_priority_level score) = "Immediate (within 1 month)")
  ∧ ((2 <= score)%Q → (score < 3)%Q
     → _get_timeline (get_priority_level score)
       = "High Priority (within 3 months)")
  ∧ ((3 <= score)%Q → (score < 3.5)%Q
     → _get_timeline (get_priority_level score)
       = "Medium Priority (within 6 months)")
  ∧ ((3.5 <= score)%Q
     → _get_timeline (get_priority_level score)
       = "Low Priority (within 12 months)").
Proof.
  unfold get_priority_level.
  repeat split; intros; case_ltb; try reflexivity; exfalso; lra.
Qed.

(** X5. In a normal response the timeline of a recommendation is the one of
    the band of its current score: "Immediate (within 1 month)" below 2.0,
    "High Priority (within 3 months)" from 2.0 to below 3.0, "Medium
    Priority (within 6 months)" from 3.0 to below 3.5 and "Low Priority
    (within 12 months)" from 3.5 on; the fallback "To be scheduled" of
    [_get_timeline] never reaches a response. *)
Theorem timeline_follows_score (self : system)
    (list_of_set : list string → list string) (today : string)
    (a : assessment) (areas : list (string * Q)) (f : formatted_rec) :
  set_enumeration list_of_set →
  identify_priority_areas a = Ok areas →
  f ∈ recommendations (recommend_training self list_of_set today a) →
  ((current_score f < 2)%Q → timeline f = "Immediate (within 1 month)")
  ∧ ((2 <= current_score f)%Q → (current_score f < 3)%Q
     → timeline f = "High Priority (within 3 months)")
  ∧ ((3 <= current_score f)%Q → (current_score f < 3.5)%Q
     → timeline f = "Medium Priority (within 6 months)")
  ∧ ((3.5 <= current_score f)%Q
     → timeline f = "Low Priority (within 12 months)")
  ∧ timeline f ≠ "To be scheduled".
Proof.
  intros Hset Hareas Hf.
  destruct (response_recommendation_built self list_of_set today a areas f
              Hset Hareas Hf)
    as (area & rec & i & _ & Hb & ->).
  destruct Hb as (_ & Hs & _ & _ & Ht & _). simpl. rewrite Ht, Hs.
  destruct (timeline_of_score area.2) as (H1 & H2 & H3 & H4).
  repeat split; try done.
  unfold get_priority_level. by case_ltb.
Qed.

Lemma timeline_follows_score_witness :
  ∃ f rest,
    recommendations
      (recommend_training trs first_seen "2024-01-01" scenario_a)
    = f :: rest
    ∧ current_score f = 1.2%Q
    ∧ timeline f = "Immediate (within 1 month)"
    ∧ timeline f ≠ "To be scheduled".
Proof.
  eexists _, _. split; [by vm_compute|]. split; [by vm_compute|].
  destruct (timeline_follows_score trs first_seen "2024-01-01" scenario_a
              [("core_information_seeking", 1.2%Q)]
              (format_rec 1
                 {| rec_competency_gap := "core_information_seeking";
                    rec_current_score := 1.2;
                    rec_training_details :=
                      with_training_id
                        (default (generic_training "")
                           (snd <$> trs_training_database !! 9%nat))
                        "IT-2024-501";
                    rec_relevance_score := 8.892;
                    rec_priority_level := 1;
                    rec_expected_improvement := 2;
                    rec_timeline := "Immediate (within 1 month)" |})
              first_seen_enumeration)
    as (H1 & _ & _ & _ & H5).
  - by vm_compute.
  - vm_compute. left.
  - split; [|exact H5]. apply H1. by vm_compute.
Defined.



Lemma relevance_score_bounds (competency : string) (score : Q)
    (td : training) (emp : assessment) :
  (0.1 <= calculate_relevance_score competency score td emp)%Q
  ∧ (calculate_relevance_score competency score td emp <= 10)%Q.
Proof.
  unfold calculate_relevance_score.
  match goal with |- context [Num.py_min 10 ?x] => generalize x end.
  intros x.
  destruct (py_min_spec 10 x) as [[H1 ->]|[H1 ->]];
    [destruct (py_max_spec 0.1 x) as [[H2 ->]|[H2 ->]]
    |destruct (py_max_spec 0.1 10) as [[H2 ->]|[H2 ->]]];
    split; lra.
Qed.

(** X7. In a normal response the reported relevance of a recommendation
    lies in [0.1, 10]. *)
Theorem reported_relevance (self : system)
    (list_of_set : list string → list string) (today : string)
    (a : assessment) (areas : list (string * Q)) (f : formatted_rec) :
  set_enumeration list_of_set →
  identify_priority_areas a = Ok areas →
  f ∈ recommendations (recommend_training self list_of_set today a) →
  (0.1 <= relevance_score f)%Q ∧ (relevance_score f <= 10)%Q.
Proof.
  intros Hset Hareas Hf.
  destruct (response_recommendation_built self list_of_set today a areas f
              Hset Hareas Hf)
    as (area & rec & i & _ & Hb & ->).
  destruct Hb as (Hc & Hs & _ & _ & _ & Hr & _). simpl.
  apply relevance_in_range; rewrite Hr; apply relevance_score_bounds.
Qed.

Lemma reported_relevance_witness :
  ∃ f rest,
    recommendations
      (recommend_training trs first_seen "2024-01-01" scenario_a)
    = f :: rest
    ∧ (0.1 <= relevance_score f)%Q
    ∧ (relevance_score f <= 10)%Q.
Proof.
  eexists _, _. split; [by vm_compute|].
  apply (reported_relevance trs first_seen "2024-01-01" scenario_a
           [("core_information_seeking", 1.2%Q)]
           (format_rec 1
              {| rec_competency_gap := "core_information_seeking";
                 rec_current_score := 1.2;
                 rec_training_details :=
                   with_training_id
                     (default (generic_training "")
                        (snd <$> trs_training_database !! 9%nat))
                     "IT-2024-501";
                 rec_relevance_score := 8.892;
                 rec_priority_level := 1;
                 rec_expected_improvement := 2;
                 rec_timeline := "Immediate (within 1 month)" |})
           first_seen_enumeration).
  - by vm_compute.
  - vm_compute. left.
Defined.

(** ** Order of the response *)

Lemma StronglySorted_lookup {A : Type} (R : relation A) (l : list A)
    (i j : nat) (x y : A) :
  StronglySorted R l → (i < j)%nat →
  l !! i = Some x → l !! j = Some y → R x y.
Proof.
  intros Hl. revert i j. induction Hl as [|z l Hl IH Hz]; intros i j Hij.
  - done.
  - destruct j as [|j]; [lia|]. destruct i as [|i]; simpl.
    + intros [= ->] Hy. rewrite Forall_forall in Hz.
      apply Hz. by eapply list_elem_of_lookup_2.
    + apply IH. lia.
Qed.

Lemma formatted_lookup (today : string) (a : assessment)
    (top : list recommendation) (i : nat) (f : formatted_rec) :
  recommendations (_build_response today a top) !! i = Some f →
  ∃ rec, top !! i = Some rec ∧ f = format_rec (1 + Z.of_nat i) rec.
Proof.
  rewrite build_response_recommendations.
  change (map ?g ?l) with (g <$> l).
  rewrite list_lookup_fmap, enumerate_lookup.
  destruct (top !! i) as [rec|]; simpl; [|done].
  intros [= <-]. by exists rec.
Qed.

(** X8. A normal response lists the recommendations by urgency: an earlier
    recommendation never has a less urgent priority level (the level of
    its current score) than a later one, and among recommendations of the
    same level an earlier one never has a lower reported relevance. *)
Theorem response_ordered_by_urgency (self : system)
    (list_of_set : list string → list string) (today : string)
    (a : assessment) (areas : list (string * Q))
    (i j : nat) (fi fj : formatted_rec) :
  set_enumeration list_of_set →
  identify_priority_areas a = Ok areas →
  (i < j)%nat →
  recommendations (recommend_training self list_of_set today a) !! i
  = Some fi →
  recommendations (recommend_training self list_of_set today a) !! j
  = Some fj →
  (get_priority_level (current_score fi)
   <= get_priority_level (current_score fj))%Z
  ∧ (get_priority_level (current_score fi)
     = get_priority_level (current_score fj)
     → (relevance_score fj <= relevance_score fi)%Q).
Proof.
  intros Hset Hareas Hij Hi Hj.
  destruct (recommend_training_retained self list_of_set Hset a today areas
              Hareas) as (top & Heq & _ & Hbuilt & Hsorted).
  rewrite Heq in Hi, Hj.
  apply formatted_lookup in Hi as (ri & Hi & ->).
  apply formatted_lookup in Hj as (rj & Hj & ->).
  apply Sorted_StronglySorted in Hsorted; [|apply rec_key_le_trans].
  pose proof (StronglySorted_lookup _ _ _ _ _ _ Hsorted Hij Hi Hj) as Hle.
  rewrite Forall_forall in Hbuilt.
  destruct (Hbuilt ri (list_elem_of_lookup_2 _ _ _ Hi))
    as (areai & _ & _ & Hsi & Hli & _).
  destruct (Hbuilt rj (list_elem_of_lookup_2 _ _ _ Hj))
    as (areaj & _ & _ & Hsj & Hlj & _).
  simpl. rewrite Hsi, Hsj, <- Hli, <- Hlj.
  destruct Hle as [Hlt|[Heq' Hrel]].
  - split; [lia|]. intros E. lia.
  - split; [lia|]. intros _. by apply round2_mono.
Qed.

Lemma response_ordered_by_urgency_witness :
  ∃ fi fj,
    recommendations
      (recommend_training trs first_seen "2024-01-01" finance_staff) !! 0%nat
    = Some fi
    ∧ recommendations
        (recommend_training trs first_seen "2024-01-01" finance_staff)
      !! 1%nat
      = Some fj
    ∧ relevance_score fi = 4.84%Q
    ∧ relevance_score fj = 4.55%Q
    ∧ (get_priority_level (current_score fi)
       <= get_priority_level (current_score fj))%Z.
Proof.
  eexists _, _. split; [by vm_compute|]. split; [by vm_compute|].
  split; [by vm_compute|]. split; [by vm_compute|].
  eapply (response_ordered_by_urgency trs first_seen "2024-01-01"
            finance_staff _ 0 1).
  - exact first_seen_enumeration.
  - by vm_compute.
  - lia.
  - by vm_compute.
  - by vm_compute.
Defined.

(** ** Faults *)

(** X9. A score that [float] rejects ([None], a list, a dictionary, a string
    that is no number, an integer beyond the range of binary64) in one of
    the three score groups of a dictionary assessment gives the error
    response: an [error] text, no recommendation and zero totals. *)
Theorem rejected_score_gives_error_response
    (list_of_set : list string → list string) (today : string)
    (float_of_str : string → option binary64) (repr : string → string)
    (round2 : binary64 → binary64) (self : system)
    (d : list (string * Dyn.value)) (group : string)
    (scores : list (string * Dyn.value)) (k : string) (v : Dyn.value)
    (e : exn) :
  group ∈ ["core_competency_scores"; "managerial_competency_scores";
           "leadership_competency_scores"] →
  Dyn.dict_lookup d group = Some (Dyn.VDict scores) →
  (k, v) ∈ scores →
  Dyn.float float_of_str repr v = Raise e →
  ∃ r e',
    Dyn.recommend_training list_of_set today float_of_str repr round2 self
      (Dyn.VDict d) = Ok r
    ∧ Dyn.error r = Some (str_of_exn e')
    ∧ Dyn.recommendations r = []
    ∧ total_recommendations (Dyn.resp_summary r) = 0%Z
    ∧ total_estimated_cost (Dyn.resp_summary r) = 0%Z
    ∧ total_estimated_duration (Dyn.resp_summary r) = 0%Z.
Proof.
  intros Hgroup Hlookup Hin Hv.
  destruct (identify_priority_areas_raises float_of_str repr d group scores
              k v e Hgroup Hlookup Hin Hv) as [e' He'].
  unfold Dyn.recommend_training, Dyn.recommend_training_body.
  rewrite He'. cbn [mbind result_bind Dyn.try_except].
  rewrite error_response_dict. eexists _, e'. split; [reflexivity|]. done.
Qed.

Lemma rejected_score_gives_error_response_witness :
  ∃ r e',
    Dyn.recommend_training first_seen "2024-01-01" (fun _ => None) id id trs
      Dyn.score_is_none = Ok r
    ∧ Dyn.error r = Some (str_of_exn e')
    ∧ Dyn.recommendations r = []
    ∧ total_recommendations (Dyn.resp_summary r) = 0%Z
    ∧ total_estimated_cost (Dyn.resp_summary r) = 0%Z
    ∧ total_estimated_duration (Dyn.resp_summary r) = 0%Z.
Proof.
  apply (rejected_score_gives_error_response first_seen "2024-01-01"
           (fun _ => None) id id trs _ "core_competency_scores"
           [("information_seeking", Dyn.VNone)] "information_seeking"
           Dyn.VNone
           (TypeError
              "float() argument must be a string or a real number, not 'NoneType'")).
  - set_solver.
  - reflexivity.
  - set_solver.
  - reflexivity.
Defined.

Lemma lower_receiver_cases (v : Dyn.value) :
  (∃ s, v = Dyn.VStr s ∧ Dyn.lower_receiver v = Ok s)
  ∨ ((∀ s, v ≠ Dyn.VStr s)
     ∧ Dyn.lower_receiver v = Raise (Dyn.attribute_error v "lower")).
Proof. destruct v; (by left; eexists) || (by right). Qed.

(** With a context value that is no string, the call of [filter_by_context]
    in [recommend_training] raises. *)
Lemma context_fault (list_of_set : list string → list string)
    (self : system) (d : list (string * Dyn.value)) (key : string)
    (v : Dyn.value) :
  key ∈ ["current_position"; "division"; "experience_level"] →
  Dyn.dict_lookup d key = Some v →
  (∀ s, v ≠ Dyn.VStr s) →
  ∃ v', (∀ s, v' ≠ Dyn.VStr s)
    ∧ ∀ trainings,
        (position ← Dyn.get (Dyn.VDict d) "current_position" (Dyn.VStr "");
         division ← Dyn.get (Dyn.VDict d) "division" (Dyn.VStr "");
         experience ←
           Dyn.get (Dyn.VDict d) "experience_level" (Dyn.VStr "");
         Dyn.filter_by_context list_of_set self trainings position division
           experience)
        = Raise (Dyn.attribute_error v' "lower").
Proof.
  intros Hkey Hlookup Hv.
  cbn [Dyn.get mbind result_bind]. unfold Dyn.filter_by_context.
  set (p := match Dyn.dict_lookup d "current_position" with
            | Some v => v | None => Dyn.VStr "" end).
  set (dv := match Dyn.dict_lookup d "division" with
             | Some v => v | None => Dyn.VStr "" end).
  set (ex := match Dyn.dict_lookup d "experience_level" with
             | Some v => v | None => Dyn.VStr "" end).
  destruct (lower_receiver_cases p) as [(sp & Hp & ->) | [Hp ->]];
    [|by exists p].
  destruct (lower_receiver_cases dv) as [(sd & Hd & ->) | [Hd ->]];
    [|by exists dv].
  destruct (lower_receiver_cases ex) as [(se & He & ->) | [He ->]];
    [|by exists ex].
  exfalso. subst p dv ex.
  apply elem_of_cons in Hkey as [-> | Hkey];
    [|apply elem_of_cons in Hkey as [-> | Hkey];
       [|apply elem_of_cons in Hkey as [-> | Hkey];
          [|by apply elem_of_nil in Hkey]]];
    rewrite Hlookup in *; by eapply Hv.
Qed.

Lemma recommend_area_cases (list_of_set : list string → list string)
    (self : system) (d : list (string * Dyn.value))
    (area : string * binary64) (recs : list Dyn.recommendation) (e : exn) :
  (∀ trainings,
     (position ← Dyn.get (Dyn.VDict d) "current_position" (Dyn.VStr "");
      division ← Dyn.get (Dyn.VDict d) "division" (Dyn.VStr "");
      experience ← Dyn.get (Dyn.VDict d) "experience_level" (Dyn.VStr "");
      Dyn.filter_by_context list_of_set self trainings position division
        experience)
     = Raise e) →
  Dyn.recommend_area list_of_set self (Dyn.VDict d) recs area
  = if truthy (default [] (competency_training_mapping self !! area.1))
    then Raise e else Ok recs.
Proof.
  intros Hfault. unfold Dyn.recommend_area. cbv zeta.
  destruct (truthy (default [] (competency_training_mapping self !! area.1)));
    cbn [negb]; [|done].
  specialize (Hfault (default [] (competency_training_mapping self !! area.1))).
  cbn [Dyn.get mbind result_bind] in Hfault |- *.
  by rewrite Hfault.
Qed.

Lemma recommend_areas_raise (list_of_set : list string → list string)
    (self : system) (d : list (string * Dyn.value))
    (areas : list (string * binary64)) (area : string * binary64)
    (recs : list Dyn.recommendation) (e : exn) :
  (∀ trainings,
     (position ← Dyn.get (Dyn.VDict d) "current_position" (Dyn.VStr "");
      division ← Dyn.get (Dyn.VDict d) "division" (Dyn.VStr "");
      experience ← Dyn.get (Dyn.VDict d) "experience_level" (Dyn.VStr "");
      Dyn.filter_by_context list_of_set self trainings position division
        experience)
     = Raise e) →
  area ∈ areas →
  truthy (default [] (competency_training_mapping self !! area.1)) = true →
  Dyn.for_each (Dyn.recommend_area list_of_set self (Dyn.VDict d)) areas recs
  = Raise e.
Proof.
  intros Hfault Hin Hmapped.
  induction areas as [|a areas IH]; [by apply elem_of_nil in Hin|].
  cbn [Dyn.for_each].
  rewrite (recommend_area_cases list_of_set self d a recs e Hfault).
  destruct (truthy (default [] (competency_training_mapping self !! a.1)))
    eqn:Ha; [done|].
  cbn [mbind result_bind]. apply IH.
  apply elem_of_cons in Hin as [-> | Hin]; [congruence | done].
Qed.

(** X13. When a priority area of a dictionary assessment has a school in
    the competency mapping and the position, the division or the
    experience level of the assessment is present but is no string ([None],
    a number), [recommend_training] returns the error response: its
    [error] is the text of the [AttributeError] of [lower], it has no
    recommendation and its totals are zero. *)
Theorem non_string_context_gives_error_response
    (list_of_set : list string → list string) (today : string)
    (float_of_str : string → option binary64) (repr : string → string)
    (round2 : binary64 → binary64) (self : system)
    (d : list (string * Dyn.value)) (areas : list (string * binary64))
    (area : string * binary64) (key : string) (v : Dyn.value) :
  Dyn.identify_priority_areas float_of_str repr (Dyn.VDict d) = Ok areas →
  area ∈ areas →
  truthy (default [] (competency_training_mapping self !! area.1)) = true →
  key ∈ ["current_position"; "division"; "experience_level"] →
  Dyn.dict_lookup d key = Some v →
  (∀ s, v ≠ Dyn.VStr s) →
  ∃ r v',
    Dyn.recommend_training list_of_set today float_of_str repr round2 self
      (Dyn.VDict d) = Ok r
    ∧ (∀ s, v' ≠ Dyn.VStr s)
    ∧ Dyn.error r
      = Some ("'" ++ Dyn.type_name v'
              ++ "' object has no attribute 'lower'")
    ∧ Dyn.recommendations r = []
    ∧ total_recommendations (Dyn.resp_summary r) = 0%Z
    ∧ total_estimated_cost (Dyn.resp_summary r) = 0%Z
    ∧ total_estimated_duration (Dyn.resp_summary r) = 0%Z.
Proof.
  intros Hareas Hin Hmapped Hkey Hlookup Hv.
  destruct (context_fault list_of_set self d key v Hkey Hlookup Hv)
    as (v' & Hv' & Hfault).
  unfold Dyn.recommend_training, Dyn.recommend_training_body.
  rewrite Hareas. cbn [mbind result_bind].
  rewrite (recommend_areas_raise list_of_set self d areas area []
             _ Hfault Hin Hmapped).
  cbn [mbind result_bind Dyn.try_except].
  rewrite error_response_dict. eexists _, v'. split; [reflexivity|].
  split; [exact Hv'|]. done.
Qed.

Lemma non_string_context_gives_error_response_witness :
  ∃ r v',
    Dyn.recommend_training first_seen "2024-01-01" (fun _ => None) id id trs
      Dyn.position_is_none = Ok r
    ∧ (∀ s, v' ≠ Dyn.VStr s)
    ∧ Dyn.error r
      = Some ("'" ++ Dyn.type_name v'
              ++ "' object has no attribute 'lower'")
    ∧ Dyn.recommendations r = []
    ∧ total_recommendations (Dyn.resp_summary r) = 0%Z
    ∧ total_estimated_cost (Dyn.resp_summary r) = 0%Z
    ∧ total_estimated_duration (Dyn.resp_summary r) = 0%Z.
Proof.
  apply (non_string_context_gives_error_response first_seen "2024-01-01"
           (fun _ => None) id id trs _
           [("core_information_seeking", 1.2%float)]
           ("core_information_seeking", 1.2%float)
           "current_position" Dyn.VNone).
  - reflexivity.
  - set_solver.
  - by vm_compute.
  - set_solver.
  - reflexivity.
  - intros s H. discriminate H.
Defined.

(** ** The assessments on which the engine raises *)

Lemma add_scores_returns (float_of_str : string → option binary64)
    (repr : string → string) (prefix : string)
    (scores : list (string * Dyn.value))
    (all_scores : list (string * binary64)) :
  match Dyn.for_each (Dyn.add_score float_of_str repr prefix) scores
          all_scores with
  | Ok _ => true
  | Raise _ => false
  end
  = forallb (fun kv => Dyn.is_number float_of_str repr kv.2) scores.
Proof.
  revert all_scores. induction scores as [|[k v] scores IH]; intros acc.
  - reflexivity.
  - cbn [Dyn.for_each forallb]. unfold Dyn.is_number at 1. cbn [snd].
    destruct (Dyn.float float_of_str repr v) as [x|e] eqn:E.
    + assert (Dyn.add_score float_of_str repr prefix acc (k, v)
              = Ok (dict_set acc (prefix ++ k) x)) as ->
        by (unfold Dyn.add_score; simpl; by rewrite E).
      cbn [mbind result_bind]. apply IH.
    + assert (Dyn.add_score float_of_str repr prefix acc (k, v) = Raise e)
        as -> by (unfold Dyn.add_score; simpl; by rewrite E).
      reflexivity.
Qed.

Lemma identify_priority_areas_returns
    (float_of_str : string → option binary64) (repr : string → string)
    (d : list (string * Dyn.value)) :
  (∃ areas,
     Dyn.identify_priority_areas float_of_str repr (Dyn.VDict d) = Ok areas)
  ↔ Dyn.well_formed_scores float_of_str repr d = true.
Proof.
  unfold Dyn.well_formed_scores, Dyn.group_ok, Dyn.identify_priority_areas.
  cbn [Dyn.get mbind result_bind].
  destruct (Dyn.dict_lookup d "core_competency_scores")
    as [[| | | | | |?scores]|];
    destruct (Dyn.dict_lookup d "managerial_competency_scores")
      as [[| | | | | |?scores]|];
    destruct (Dyn.dict_lookup d "leadership_competency_scores")
      as [[| | | | | |?scores]|];
    cbn [Dyn.items Dyn.for_each mbind result_bind andb forallb];
    repeat match goal with
    | |- context [Dyn.for_each (Dyn.add_score ?f ?r ?p) ?xs ?acc] =>
        let H := fresh in
        pose proof (add_scores_returns f r p xs acc) as H;
        destruct (Dyn.for_each (Dyn.add_score f r p) xs acc);
        rewrite <- H; clear H;
        cbn [mbind result_bind andb]
    end;
    rewrite ?andb_false_r;
    first [ by split; [intros [? ?] | intros ?]
          | by split; [| intros _; eexists] ].
Qed.

Lemma calculate_relevance_score_returns (d : list (string * Dyn.value))
    (competency : string) (score : binary64) (td : training) :
  Dyn.well_formed_context d = true →
  ∃ x, Dyn.calculate_relevance_score competency score td (Dyn.VDict d)
       = Ok x.
Proof.
  unfold Dyn.well_formed_context, Dyn.str_or_absent,
    Dyn.calculate_relevance_score.
  cbn [Dyn.get mbind result_bind].
  destruct (Dyn.dict_lookup d "current_position") as [[]|];
    destruct (Dyn.dict_lookup d "division") as [[]|];
    destruct (Dyn.dict_lookup d "experience_level") as [[]|];
    simpl; intros H; try discriminate H; by eexists.
Qed.

Lemma recommend_schools_return (self : system)
    (d : list (string * Dyn.value)) (competency : string) (score : binary64)
    (schools : list string) (recs : list Dyn.recommendation) :
  Dyn.well_formed_context d = true →
  ∃ recs',
    Dyn.for_each (Dyn.recommend_school self (Dyn.VDict d) competency score)
      schools recs = Ok recs'.
Proof.
  intros Hd. revert recs.
  induction schools as [|t schools IH]; intros recs; [by eexists|].
  cbn [Dyn.for_each].
  assert (∃ recs', Dyn.recommend_school self (Dyn.VDict d) competency score
                     recs t = Ok recs') as [recs' ->].
  { unfold Dyn.recommend_school.
    destruct (get_training_details self t) as [td|]; [|by eexists].
    destruct (calculate_relevance_score_returns d competency score td Hd)
      as [x ->].
    by eexists. }
  cbn [mbind result_bind]. apply IH.
Qed.

Lemma recommend_area_returns (list_of_set : list string → list string)
    (self : system) (d : list (string * Dyn.value))
    (recs : list Dyn.recommendation) (area : string * binary64) :
  Dyn.well_formed_context d = true ∨ Dyn.mapped self area = false →
  ∃ recs',
    Dyn.recommend_area list_of_set self (Dyn.VDict d) recs area = Ok recs'.
Proof.
  unfold Dyn.recommend_area, Dyn.mapped. cbv zeta. intros Hd.
  destruct (truthy (default [] (competency_training_mapping self !! area.1)));
    cbn [negb]; [|by eexists].
  destruct Hd as [Hd|Hd]; [|discriminate Hd].
  assert (∃ l,
            (position ←
               Dyn.get (Dyn.VDict d) "current_position" (Dyn.VStr "");
             division ← Dyn.get (Dyn.VDict d) "division" (Dyn.VStr "");
             experience ←
               Dyn.get (Dyn.VDict d) "experience_level" (Dyn.VStr "");
             Dyn.filter_by_context list_of_set self
               (default [] (competency_training_mapping self !! area.1))
               position division experience)
            = Ok l) as [l Hl].
  { revert Hd.
    unfold Dyn.well_formed_context, Dyn.str_or_absent,
      Dyn.filter_by_context.
    cbn [Dyn.get mbind result_bind].
    destruct (Dyn.dict_lookup d "current_position") as [[]|];
      destruct (Dyn.dict_lookup d "division") as [[]|];
      destruct (Dyn.dict_lookup d "experience_level") as [[]|];
      simpl; intros H; try discriminate H; by eexists. }
  cbn [Dyn.get mbind result_bind] in Hl |- *. rewrite Hl.
  cbn [mbind result_bind]. by apply recommend_schools_return.
Qed.

Lemma recommend_areas_return (list_of_set : list string → list string)
    (self : system) (d : list (string * Dyn.value))
    (areas : list (string * binary64)) (recs : list Dyn.recommendation) :
  Dyn.well_formed_context d = true ∨ existsb (Dyn.mapped self) areas = false →
  ∃ recs',
    Dyn.for_each (Dyn.recommend_area list_of_set self (Dyn.VDict d)) areas
      recs = Ok recs'.
Proof.
  revert recs. induction areas as [|a areas IH]; intros recs Hd;
    [by eexists|].
  cbn [Dyn.for_each].
  destruct (recommend_area_returns list_of_set self d recs a) as [recs' ->].
  { destruct Hd as [Hd|Hd]; [by left | right].
    cbn [existsb] in Hd. by apply orb_false_iff in Hd as [Hd _]. }
  cbn [mbind result_bind]. apply IH.
  destruct Hd as [Hd|Hd]; [by left | right].
  cbn [existsb] in Hd. by apply orb_false_iff in Hd as [_ Hd].
Qed.

(** A context that is not well formed has an entry that is no string. *)
Lemma ill_formed_context (d : list (string * Dyn.value)) :
  Dyn.well_formed_context d = false →
  ∃ key v,
    key ∈ ["current_position"; "division"; "experience_level"]
    ∧ Dyn.dict_lookup d key = Some v ∧ ∀ s, v ≠ Dyn.VStr s.
Proof.
  unfold Dyn.well_formed_context. intros H.
  assert (∃ key, key ∈ ["current_position"; "division"; "experience_level"]
                 ∧ Dyn.str_or_absent d key = false) as (key & Hkey & Hk).
  { destruct (Dyn.str_or_absent d "current_position") eqn:E1;
      [|exists "current_position"; split; [set_solver | done]].
    destruct (Dyn.str_or_absent d "division") eqn:E2;
      [|exists "division"; split; [set_solver | done]].
    destruct (Dyn.str_or_absent d "experience_level") eqn:E3;
      [discriminate H|].
    exists "experience_level". split; [set_solver | done]. }
  unfold Dyn.str_or_absent in Hk.
  destruct (Dyn.dict_lookup d key) as [v|] eqn:Ev; [|discriminate Hk].
  exists key, v. split; [done|]. split; [done|].
  intros s ->. discriminate Hk.
Qed.

(** X22. On a dictionary assessment [recommend_training] returns a normal
    response, one without [error], exactly when each of the three score
    groups is absent or a dictionary of values that [float] accepts and,
    unless none of the priority areas has a school in the competency
    mapping, the position, the division and the experience level are each
    absent or a string. Every other dictionary assessment gets the error
    response. *)
Theorem normal_response_iff_well_formed
    (list_of_set : list string → list string) (today : string)
    (float_of_str : string → option binary64) (repr : string → string)
    (round2 : binary64 → binary64) (self : system)
    (d : list (string * Dyn.value)) :
  ∃ r,
    Dyn.recommend_training list_of_set today float_of_str repr round2 self
      (Dyn.VDict d) = Ok r
    ∧ (Dyn.error r = None
       ↔ Dyn.well_formed_scores float_of_str repr d = true
         ∧ ∀ areas,
             Dyn.identify_priority_areas float_of_str repr (Dyn.VDict d)
             = Ok areas →
             Dyn.well_formed_context d = true
             ∨ existsb (Dyn.mapped self) areas = false).
Proof.
  pose proof (identify_priority_areas_returns float_of_str repr d) as Hwf.
  unfold Dyn.recommend_training, Dyn.recommend_training_body.
  destruct (Dyn.identify_priority_areas float_of_str repr (Dyn.VDict d))
    as [areas|e]; cbn [mbind result_bind].
  - destruct (Dyn.well_formed_context d) eqn:Hctx.
    + destruct (recommend_areas_return list_of_set self d areas []
                  (or_introl Hctx)) as [recs ->].
      cbn [mbind result_bind].
      destruct (build_response_dict today round2 d
                  (take 3 (stable_sort Dyn.rec_key_lt recs)))
        as (r & -> & Herr).
      exists r. split; [done|]. rewrite Herr.
      split; [|done]. intros _. split; [apply Hwf; by eexists | by left].
    + destruct (existsb (Dyn.mapped self) areas) eqn:Hmapped.
      * pose proof Hmapped as Hex.
        apply existsb_exists in Hmapped as (area & Hin & Hmapped).
        apply list_elem_of_In in Hin.
        destruct (ill_formed_context d Hctx) as (key & v & Hkey & Hv & Hstr).
        destruct (context_fault list_of_set self d key v Hkey Hv Hstr)
          as (v' & _ & Hfault).
        rewrite (recommend_areas_raise list_of_set self d areas area [] _
                   Hfault Hin Hmapped).
        cbn [mbind result_bind Dyn.try_except].
        rewrite error_response_dict. eexists. split; [reflexivity|].
        simpl. split; [done|]. intros [_ H].
        destruct (H areas eq_refl); congruence.
      * destruct (recommend_areas_return list_of_set self d areas []
                    (or_intror Hmapped)) as [recs ->].
        cbn [mbind result_bind].
        destruct (build_response_dict today round2 d
                    (take 3 (stable_sort Dyn.rec_key_lt recs)))
          as (r & -> & Herr).
        exists r. split; [done|]. rewrite Herr.
        split; [|done]. intros _. split; [apply Hwf; by eexists|].
        intros areas' [= <-]. by right.
  - cbn [Dyn.try_except]. rewrite error_response_dict.
    eexists. split; [reflexivity|]. simpl.
    split; [done|]. intros [H _]. by apply Hwf in H as [areas H].
Qed.

(** ** More on the context filter *)

(** X10. Unless the experience is junior, [filter_by_context] returns the
    distinct candidates, all of them and nothing else: the position,
    division and senior steps only add candidates that are already there. *)
Theorem filter_by_context_keeps_all (self : system)
    (list_of_set : list string → list string)
    (trainings : list string) (position division experience : string) :
  set_enumeration list_of_set →
  Str.lower experience ≠ "junior" →
  filter_by_context self list_of_set trainings position division experience
  ≡ₚ remove_dups trainings.
Proof.
  intros Hset Hexp. apply NoDup_Permutation.
  - by apply filter_by_context_NoDup.
  - apply NoDup_remove_dups.
  - intros t. rewrite (filter_by_context_members self list_of_set Hset),
      elem_of_remove_dups. tauto.
Qed.

Lemma filter_by_context_keeps_all_witness :
  filter_by_context trs first_seen
    ["Transformasi Strategis"; "Strategi Transfrormasi";
     "Transformasi Strategis"]
    "Senior Manager" "strategy" "senior"
  = ["Transformasi Strategis"; "Strategi Transfrormasi"]
  ∧ filter_by_context trs first_seen
      ["Transformasi Strategis"; "Strategi Transfrormasi";
       "Transformasi Strategis"]
      "Senior Manager" "strategy" "senior"
    ≡ₚ remove_dups
         ["Transformasi Strategis"; "Strategi Transfrormasi";
          "Transformasi Strategis"].
Proof.
  split; [by vm_compute|].
  apply (filter_by_context_keeps_all trs first_seen).
  - exact first_seen_enumeration.
  - by vm_compute.
Defined.

(** X11. The position and the division of the employee have no effect on
    which schools [filter_by_context] returns: for the same candidates and
    experience, any two positions and divisions give the same schools, up
    to order. *)
Theorem filter_by_context_ignores_position_and_division (self : system)
    (list_of_set : list string → list string)
    (trainings : list string)
    (position division position' division' experience : string) :
  set_enumeration list_of_set →
  filter_by_context self list_of_set trainings position division experience
  ≡ₚ filter_by_context self list_of_set trainings position' division'
       experience.
Proof.
  intros Hset. apply NoDup_Permutation.
  - by apply filter_by_context_NoDup.
  - by apply filter_by_context_NoDup.
  - intros t. by rewrite !(filter_by_context_members self list_of_set Hset).
Qed.

Lemma filter_by_context_ignores_position_and_division_witness :
  filter_by_context trs first_seen ["Teknologi Informasi"; "Strategi SDM"]
    "Manager" "it" "mid"
  ≡ₚ filter_by_context trs first_seen ["Teknologi Informasi"; "Strategi SDM"]
       "Staff" "finance" "mid".
Proof.
  apply (filter_by_context_ignores_position_and_division trs first_seen).
  exact first_seen_enumeration.
Defined.

(** ** More on the relevance score *)

Lemma clamp_cases (x : Q) :
  ((x < 0.1)%Q ∧ Num.py_max 0.1 (Num.py_min 10 x) = 0.1%Q)
  ∨ ((0.1 <= x)%Q ∧ (x <= 10)%Q
     ∧ (Num.py_max 0.1 (Num.py_min 10 x) == x)%Q)
  ∨ ((10 < x)%Q ∧ Num.py_max 0.1 (Num.py_min 10 x) = 10%Q).
Proof.
  destruct (py_min_spec 10 x) as [[H1 ->]|[H1 ->]].
  - destruct (py_max_spec 0.1 x) as [[H2 ->]|[H2 ->]].
    + right. left. repeat split; lra.
    + destruct (Qlt_le_dec x 0.1); [left; by split|].
      right. left. repeat split; lra.
  - destruct (py_max_spec 0.1 10) as [[H2 ->]|[H2 ->]]; [|exfalso; lra].
    destruct (Qlt_le_dec 10 x); [right; right; by split|].
    right. left. repeat split; lra.
Qed.

Lemma clamp_mono (x y : Q) :
  (x <= y)%Q →
  (Num.py_max 0.1 (Num.py_min 10 x) <= Num.py_max 0.1 (Num.py_min 10 y))%Q.
Proof.
  intros Hxy.
  destruct (clamp_cases x) as [[Hx ->]|[(Hx & Hx' & Ex)|[Hx ->]]];
    destruct (clamp_cases y) as [[Hy ->]|[(Hy & Hy' & Ey)|[Hy ->]]];
    rewrite ?Ex, ?Ey; lra.
Qed.

(** X12. For a given training and employee, a lower current score never
    gets a lower relevance score than a higher one. *)
Theorem relevance_decreases_with_score (competency : string)
    (score score' : Q) (td : training) (emp : assessment) :
  (score <= score')%Q →
  (calculate_relevance_score competency score' td emp
   <= calculate_relevance_score competency score td emp)%Q.
Proof.
  intros Hle. unfold calculate_relevance_score. apply clamp_mono.
  destruct (position_multiplier_spec td emp) as [[-> | ->] _];
    destruct (division_multiplier_spec td emp) as [[-> | ->] _];
    destruct (experience_multiplier_spec td emp) as [[-> | ->] _];
    lra.
Qed.

Lemma relevance_decreases_with_score_witness :
  (calculate_relevance_score "core_information_seeking" 3.0
     (generic_training "SDM") scenario_a
   <= calculate_relevance_score "core_information_seeking" 1.2
        (generic_training "SDM") scenario_a)%Q.
Proof.
  apply (relevance_decreases_with_score "core_information_seeking" 1.2 3.0).
  by vm_compute.
Defined.

(** ** More on the training resolver *)

Lemma substring_refl (s : string) : Str.substring s s.
Proof.
  exists "", "". rewrite app_nil_string.
  induction s as [|c s IH]; [done|]. by rewrite app_cons_string, <- IH.
Qed.

(** The resolver returns a catalog entry under its key, or the
    placeholder. *)
Lemma get_training_details_origin (self : system) (training_school : string)
    (r : training) :
  get_training_details self training_school = Some r →
  (∃ entry,
     entry ∈ training_database self
     ∧ r = with_training_id entry.2 entry.1
     ∧ (school_matches training_school entry = true
        ∨ school_word_matches training_school entry = true))
  ∨ (r = generic_training training_school
     ∧ ∀ entry, entry ∈ training_database self →
         school_matches training_school entry = false).
Proof.
  unfold get_training_details.
  destruct (List.filter (school_matches training_school)
              (training_database self)) as [|x rest] eqn:Efilter; simpl.
  - assert (Hnone : ∀ entry, entry ∈ training_database self →
                      school_matches training_school entry = false).
    { intros entry Hin. apply not_true_iff_false. intros Hm.
      assert (Hf : In entry (List.filter (school_matches training_school)
                               (training_database self)))
        by (apply filter_In; split; [by apply list_elem_of_In | done]).
      by rewrite Efilter in Hf. }
    destruct (List.find _ _) as [x|] eqn:Efind; intros [= <-].
    + left. apply find_some in Efind as [Hin Hx].
      exists x. split; [by apply list_elem_of_In | auto].
    + by right.
  - intros [= <-]. left.
    assert (Hx : In x (List.filter (school_matches training_school)
                         (training_database self)))
      by (rewrite Efilter; by left).
    apply filter_In in Hx as [Hin Hx].
    exists x. split; [by apply list_elem_of_In | auto].
Qed.

(** X14. The record returned by [get_training_details] always carries a
    [training_id]; when no key of the catalog is the empty string, the
    identifier is not empty either. *)
Theorem resolved_training_has_id (self : system) (training_school : string) :
  (∀ entry, entry ∈ training_database self → entry.1 ≠ "") →
  ∃ r id,
    get_training_details self training_school = Some r
    ∧ training_id r = Some id
    ∧ id ≠ "".
Proof.
  intros Hkeys.
  destruct (get_training_details_Some self training_school) as [r Hr].
  exists r.
  destruct (get_training_details_origin self training_school r Hr)
    as [(entry & Hin & -> & _) | [-> _]]; eexists; repeat split; try done.
  simpl. by apply Hkeys.
Qed.

Lemma resolved_training_has_id_witness :
  ∃ r id,
    get_training_details trs "Pengadaan" = Some r
    ∧ training_id r = Some id
    ∧ id ≠ "".
Proof.
  apply (resolved_training_has_id trs "Pengadaan").
  intros entry Hin. apply list_elem_of_In in Hin.
  repeat (destruct Hin as [<- | Hin]; [discriminate|]). destruct Hin.
Defined.

(** X15. The school of every catalog entry resolves to a catalog entry, by
    the exact tier: the result is an entry of the catalog under its key
    whose school field contains that school name in lower case, never the
    placeholder. *)
Theorem catalog_school_resolves_to_catalog (self : system)
    (entry : string * training) :
  entry ∈ training_database self →
  ∃ found,
    found ∈ training_database self
    ∧ get_training_details self (school entry.2)
      = Some (with_training_id found.2 found.1)
    ∧ Str.substring (Str.lower (school entry.2))
        (Str.lower (school found.2)).
Proof.
  intros Hin.
  assert (Hself : school_matches (school entry.2) entry = true)
    by apply school_matches_spec, substring_refl.
  unfold get_training_details.
  destruct (List.filter (school_matches (school entry.2))
              (training_database self)) as [|x rest] eqn:Efilter.
  - exfalso.
    assert (Hf : In entry (List.filter (school_matches (school entry.2))
                             (training_database self)))
      by (apply filter_In; split; [by apply list_elem_of_In | done]).
    by rewrite Efilter in Hf.
  - assert (Hx : In x (List.filter (school_matches (school entry.2))
                         (training_database self)))
      by (rewrite Efilter; by left).
    apply filter_In in Hx as [Hx Hm].
    exists x. split; [by apply list_elem_of_In|]. split; [done|].
    by apply school_matches_spec.
Qed.

Lemma catalog_school_resolves_to_catalog_witness :
  let entry :=
    default ("", generic_training "") (trs_training_database !! 14%nat) in
  school entry.2 = "Audit Internal dan Manajemen Risiko"
  ∧ get_training_details trs (school entry.2)
    = Some (with_training_id entry.2 "AD-2024-702")
  ∧ ∃ found,
      found ∈ training_database trs
      ∧ get_training_details trs (school entry.2)
        = Some (with_training_id found.2 found.1)
      ∧ Str.substring (Str.lower (school entry.2))
          (Str.lower (school found.2)).
Proof.
  intros entry. split; [by vm_compute|]. split; [by vm_compute|].
  apply (catalog_school_resolves_to_catalog trs entry).
  vm_compute. do 14 right. left.
Defined.

(** X16. The empty school name is contained in every school field, so
    [get_training_details] answers it with the first entry of a non-empty
    catalog, not with the placeholder. *)
Theorem empty_school_name_resolves_to_first_entry (self : system)
    (entry : string * training) (rest : list (string * training)) :
  training_database self = entry :: rest →
  get_training_details self ""
  = Some (with_training_id entry.2 entry.1).
Proof.
  intros Hdb. unfold get_training_details. rewrite Hdb. simpl.
  assert (school_matches "" entry = true) as ->; [|done].
  apply school_matches_spec. by exists "", (Str.lower (school entry.2)).
Qed.

Lemma empty_school_name_resolves_to_first_entry_witness :
  let entry :=
    default ("", generic_training "") (trs_training_database !! 0%nat) in
  entry.1 = "PL-2024-418"
  ∧ get_training_details trs "" = Some (with_training_id entry.2 entry.1).
Proof.
  intros entry. split; [by vm_compute|].
  by apply (empty_school_name_resolves_to_first_entry trs entry
              (drop 1 trs_training_database)).
Defined.

(** ** More on the gap analyzer *)

(** X17. The priority areas are the lowest scores: the merged scores split
    into the returned entries and the rest, and no entry of the rest has a
    lower score than a returned one. *)
Theorem priority_areas_are_lowest (a : assessment) :
  valid_scores a →
  ∃ result rest,
    identify_priority_areas a = Ok result
    ∧ (result ++ rest)%list ≡ₚ merged_scores_spec a
    ∧ ∀ x y, x ∈ result → y ∈ rest → (x.2 <= y.2)%Q.
Proof.
  intros Hvalid.
  exists (take 5 (stable_sort score_lt (merged_scores_spec a))),
    (drop 5 (stable_sort score_lt (merged_scores_spec a))).
  split; [by apply identify_priority_areas_sorted|].
  split; [rewrite take_drop; apply stable_sort_perm|].
  intros x y Hx Hy.
  assert (Hs : StronglySorted score_le
                 (take 5 (stable_sort score_lt (merged_scores_spec a))
                  ++ drop 5 (stable_sort score_lt (merged_scores_spec a)))).
  { rewrite take_drop. apply Sorted_StronglySorted; [apply _|].
    apply stable_sort_sorted; [apply score_lt_le | apply not_score_lt_le]. }
  exact (StronglySorted_app_1_elem_of _ _ _ _ _ Hs Hx Hy).
Qed.

Lemma priority_areas_are_lowest_witness :
  ∃ result rest,
    identify_priority_areas finance_staff = Ok result
    ∧ (result ++ rest)%list ≡ₚ merged_scores_spec finance_staff
    ∧ ∀ x y, x ∈ result → y ∈ rest → (x.2 <= y.2)%Q.
Proof.
  apply (priority_areas_are_lowest finance_staff).
  repeat split; simpl;
    try (apply (bool_decide_unpack _); by vm_compute);
    repeat constructor.
Defined.

#[global] Instance append_inj (prefix : string) :
  Inj (=) (=) (String.append prefix).
Proof. intros x y. apply prefix_inj. Qed.

Lemma merged_keys_NoDup (a : assessment) :
  valid_scores a → NoDup (merged_scores_spec a).*1.
Proof.
  intros ([H1 _] & [H2 _] & [H3 _]). unfold merged_scores_spec.
  rewrite !fmap_app. apply NoDup_app. split; [|split].
  - rewrite prefixed_keys. by apply (NoDup_fmap_2 (String.append "core_")).
  - intros k Hk. rewrite prefixed_keys in Hk.
    apply list_elem_of_fmap in Hk as (c & -> & _).
    rewrite elem_of_app. intros [H|H]; revert H; by apply prefixes_disjoint.
  - apply NoDup_app. split; [|split].
    + rewrite prefixed_keys.
      by apply (NoDup_fmap_2 (String.append "managerial_")).
    + intros k Hk. rewrite prefixed_keys in Hk.
      apply list_elem_of_fmap in Hk as (c & -> & _).
      by apply prefixes_disjoint.
    + rewrite prefixed_keys.
      by apply (NoDup_fmap_2 (String.append "leadership_")).
Qed.

(** X18. The priority areas name pairwise distinct competencies, and each
    returned pair is a supplied score under its key prefixed with the name
    of its group. *)
Theorem priority_areas_are_distinct_supplied_scores (a : assessment) :
  valid_scores a →
  ∃ result,
    identify_priority_areas a = Ok result
    ∧ NoDup result.*1
    ∧ ∀ k s, (k, s) ∈ result →
        ∃ group c v,
          (group, c, v) ∈
            (map (fun kv => ("core_", kv.1, kv.2))
               (default [] (core_competency_scores a))
             ++ map (fun kv => ("managerial_", kv.1, kv.2))
                  (default [] (managerial_competency_scores a))
             ++ map (fun kv => ("leadership_", kv.1, kv.2))
                  (default [] (leadership_competency_scores a)))%list
          ∧ k = group ++ c ∧ s = number v.
Proof.
  intros Hvalid. eexists.
  split; [by apply identify_priority_areas_sorted|]. split.
  - rewrite fmap_take.
    apply (sublist_NoDup _ (stable_sort score_lt (merged_scores_spec a)).*1).
    + rewrite stable_sort_perm. by apply merged_keys_NoDup.
    + apply sublist_take.
  - intros k s Hin. apply subseteq_take in Hin.
    rewrite stable_sort_perm in Hin. unfold merged_scores_spec, prefixed in Hin.
    rewrite !elem_of_app in Hin.
    destruct Hin as [Hin|[Hin|Hin]];
      apply list_elem_of_In, in_map_iff in Hin as ([c v] & [= <- <-] & Hin);
      eexists _, c, v; (split; [|done]); rewrite !elem_of_app.
    + left. apply list_elem_of_In, in_map_iff. by exists (c, v).
    + right. left. apply list_elem_of_In, in_map_iff. by exists (c, v).
    + right. right. apply list_elem_of_In, in_map_iff. by exists (c, v).
Qed.

Lemma priority_areas_are_distinct_supplied_scores_witness :
  ∃ result,
    identify_priority_areas finance_staff = Ok result
    ∧ NoDup result.*1
    ∧ result.*1
      = ["core_concern_for_order"; "managerial_business_savvy";
         "core_ethical_oriented"; "core_achievement_orientation";
         "core_resilience"].
Proof.
  destruct (priority_areas_are_distinct_supplied_scores finance_staff)
    as (result & Hr & Hnd & _).
  - repeat split; simpl;
      try (apply (bool_decide_unpack _); by vm_compute);
      repeat constructor.
  - exists result. split; [done|]. split; [done|].
    vm_compute in Hr. by injection Hr as <-.
Defined.

(** ** Presentation code *)

Lemma colors_fold (scores : list Q) (colors : list string) :
  fold_left (fun colors score => (colors ++ [priority_color score])%list)
    scores colors
  = (colors ++ map priority_color scores)%list.
Proof.
  revert colors. induction scores as [|score scores IH]; intros colors; simpl.
  - by rewrite app_nil_r.
  - by rewrite IH, <- app_assoc.
Qed.

Lemma create_priority_chart_colors_map (priority_areas : list (string * Q)) :
  create_priority_chart_colors priority_areas
  = map (fun area => priority_color area.2) priority_areas.
Proof.
  unfold create_priority_chart_colors. by rewrite colors_fold, map_map.
Qed.

Lemma priority_color_level (score : Q) :
  (priority_color score = "#ff4444" ↔ get_priority_level score = 1%Z)
  ∧ (priority_color score = "#ff8800" ↔ get_priority_level score = 2%Z)
  ∧ (priority_color score = "#2196F3" ↔ get_priority_level score = 3%Z)
  ∧ (priority_color score = "#4CAF50" ↔ get_priority_level score = 4%Z).
Proof.
  unfold priority_color, get_priority_level.
  destruct (Num.ltb score 2); [by repeat split|].
  destruct (Num.ltb score 3); [by repeat split|].
  destruct (Num.ltb score 3.5); by repeat split.
Qed.

(** X19. The bar chart of the priority areas has one colour per area, in
    order, and the colour of a bar tells the priority level the engine
    gives its score: red for level 1, orange for level 2, blue for level 3
    and green for level 4. *)
Theorem chart_colors_follow_priority_level
    (priority_areas : list (string * Q)) :
  length (create_priority_chart_colors priority_areas)
  = length priority_areas
  ∧ ∀ i area color,
      priority_areas !! i = Some area →
      create_priority_chart_colors priority_areas !! i = Some color →
      (color = "#ff4444" ↔ get_priority_level area.2 = 1%Z)
      ∧ (color = "#ff8800" ↔ get_priority_level area.2 = 2%Z)
      ∧ (color = "#2196F3" ↔ get_priority_level area.2 = 3%Z)
      ∧ (color = "#4CAF50" ↔ get_priority_level area.2 = 4%Z).
Proof.
  rewrite create_priority_chart_colors_map. split; [by rewrite length_map|].
  intros i area color Harea.
  change (map ?g ?l) with (g <$> l). rewrite list_lookup_fmap, Harea.
  intros [= <-]. apply priority_color_level.
Qed.

(** X20. The badge of a training card is CRITICAL exactly for a current
    score of priority level 1 and HIGH exactly for level 2; levels 3 and 4
    share the badge MEDIUM, as they share the [medium_priority] bucket of
    the development path. *)
Theorem priority_badge_follows_level (rec : formatted_rec) :
  (priority_badge rec = ("priority-critical", "CRITICAL")
   ↔ get_priority_level (current_score rec) = 1%Z)
  ∧ (priority_badge rec = ("priority-high", "HIGH")
     ↔ get_priority_level (current_score rec) = 2%Z)
  ∧ (priority_badge rec = ("priority-medium", "MEDIUM")
     ↔ get_priority_level (current_score rec) = 3%Z
       ∨ get_priority_level (current_score rec) = 4%Z).
Proof.
  unfold priority_badge, get_priority_level.
  destruct (Num.ltb (current_score rec) 2);
    [repeat split; try done; by intros [?|?]|].
  destruct (Num.ltb (current_score rec) 3);
    [repeat split; try done; by intros [?|?]|].
  destruct (Num.ltb (current_score rec) 3.5); repeat split; auto; done.
Qed.

(** ** A mapped gap is answered *)






